(** * License gate and cascading configuration: [app_hub.py] and [license.py]

    A shallow embedding of the two Python classes of the repository,
    [AppHub] (src/app_hub.py) and [LicenseManager] (src/license.py), and the
    properties of the license check and of the parameter cascade.

    Python values that come out of [json.loads] are modelled by [json];
    Python's [None] is [JNull].  A [dict] is an association list in
    insertion order (Python dictionaries iterate in insertion order, and
    [json.loads] yields distinct keys).  Strings are byte strings; the
    digit and white-space classes below are the ASCII ones.

    The methods mutate the object and talk to the outside (HTTP fetches,
    the clock, the console, the clipboard): they are functions in a state
    and exception monad over the object's fields, and every outside effect
    is recorded in the [trace] of the state. *)

From Stdlib Require Import String Ascii ZArith List Bool Lia.
From Stdlib Require Import Floats.SpecFloat.
From Stdlib Require Import DecimalString.
Import ListNotations.
Open Scope string_scope.
Open Scope Z_scope.

Set Warnings "-register-all".

(** ** JSON values as Python sees them *)

Inductive json : Type :=
| JNull
| JBool (b : bool)
| JInt (n : Z)
| JFloat (f : spec_float)
| JStr (s : string)
| JArr (l : list json)
| JObj (kvs : list (string * json)).

Inductive exn : Type :=
| TypeError | AttributeError | KeyError | ValueError | OverflowError.

Inductive result (A : Type) : Type :=
| Ok (a : A)
| Raise (e : exn).
Arguments Ok {A} a.
Arguments Raise {A} e.

(** [d[k]] and [k in d] on a dictionary. *)
Fixpoint lookup (k : string) (kvs : list (string * json)) : option json :=
  match kvs with
  | [] => None
  | (k', v) :: rest => if String.eqb k k' then Some v else lookup k rest
  end.

Definition has_key (k : string) (kvs : list (string * json)) : bool :=
  match lookup k kvs with Some _ => true | None => false end.

(** [x is None], [isinstance(x, str)], [isinstance(x, dict)]. *)
Definition is_none (v : json) : bool :=
  match v with JNull => true | _ => false end.

Definition is_true (v : json) : bool :=
  match v with JBool true => true | _ => false end.

(** Python truth value, as tested by [if x:] and [not x]. *)
Definition truthy (v : json) : bool :=
  match v with
  | JNull => false
  | JBool b => b
  | JInt n => negb (n =? 0)
  | JFloat (S754_zero _) => false
  | JFloat _ => true
  | JStr s => negb (String.eqb s "")
  | JArr l => match l with [] => false | _ => true end
  | JObj l => match l with [] => false | _ => true end
  end.

(** [v == s] for a [str] [s]: only an equal string compares equal. *)
Definition eq_str (v : json) (s : string) : bool :=
  match v with JStr s' => String.eqb s' s | _ => false end.

(** [sub in s] on strings. *)
Fixpoint is_substring (sub s : string) : bool :=
  if String.prefix sub s then true
  else match s with
       | EmptyString => false
       | String _ rest => is_substring sub rest
       end.

(** [k in v] for a [str] [k]: key membership on a dict, element membership
    on a list, substring on a string; the other values are not iterable. *)
Definition py_in (k : string) (v : json) : result bool :=
  match v with
  | JObj kvs => Ok (has_key k kvs)
  | JArr l => Ok (existsb (fun x => eq_str x k) l)
  | JStr s => Ok (is_substring k s)
  | _ => Raise TypeError
  end.

(** [v[k]] for a [str] [k]. *)
Definition py_getitem (v : json) (k : string) : result json :=
  match v with
  | JObj kvs => match lookup k kvs with
                | Some x => Ok x
                | None => Raise KeyError
                end
  | _ => Raise TypeError
  end.

(** [v.get(k, default)]; only a dict has the method. *)
Definition py_get (v : json) (k : string) (default : json) : result json :=
  match v with
  | JObj kvs => match lookup k kvs with
                | Some x => Ok x
                | None => Ok default
                end
  | _ => Raise AttributeError
  end.

(** [v.items()] and [v.values()]. *)
Definition py_items (v : json) : result (list (string * json)) :=
  match v with
  | JObj kvs => Ok kvs
  | _ => Raise AttributeError
  end.

Definition py_values (v : json) : result (list json) :=
  match v with
  | JObj kvs => Ok (map snd kvs)
  | _ => Raise AttributeError
  end.

(** ** [int(x)] *)

Definition is_space (c : ascii) : bool :=
  let n := nat_of_ascii c in
  ((9 <=? n) && (n <=? 13) || (28 <=? n) && (n <=? 32))%nat.

Definition digit_of (c : ascii) : option Z :=
  let n := nat_of_ascii c in
  if ((48 <=? n) && (n <=? 57))%nat then Some (Z.of_nat n - 48) else None.

Fixpoint lstrip (s : string) : string :=
  match s with
  | String c rest => if is_space c then lstrip rest else s
  | EmptyString => s
  end.

Fixpoint rstrip (s : string) : string :=
  match s with
  | EmptyString => EmptyString
  | String c rest =>
      match rstrip rest with
      | EmptyString => if is_space c then EmptyString else String c EmptyString
      | r => String c r
      end
  end.

(** Digits of a decimal literal, read left to right with accumulator
    [acc]; [prev_digit] says whether the previous character was a digit,
    which is where a single underscore may stand. *)
Fixpoint digits (s : string) (acc : Z) (prev_digit : bool) : option Z :=
  match s with
  | EmptyString => if prev_digit then Some acc else None
  | String c rest =>
      match digit_of c with
      | Some d => digits rest (10 * acc + d) true
      | None =>
          if (Ascii.eqb c "_" && prev_digit)%bool
          then match rest with
               | String c' _ =>
                   match digit_of c' with
                   | Some _ => digits rest acc false
                   | None => None
                   end
               | EmptyString => None
               end
          else None
      end
  end.

(** [int(s)] on a string: surrounding white space, an optional sign and a
    decimal literal; [None] stands for [ValueError].  The interpreter's
    configurable limit on the number of digits is not modelled. *)
Definition int_of_str (s : string) : option Z :=
  match rstrip (lstrip s) with
  | String "+" rest => digits rest 0 false
  | String "-" rest => option_map Z.opp (digits rest 0 false)
  | t => digits t 0 false
  end.

(** [int(f)] on a float truncates towards zero. *)
Definition int_of_float (f : spec_float) : result Z :=
  match f with
  | S754_zero _ => Ok 0
  | S754_infinity _ => Raise OverflowError
  | S754_nan => Raise ValueError
  | S754_finite s m e =>
      let a := if 0 <=? e then Z.pos m * 2 ^ e else Z.pos m / 2 ^ (- e) in
      Ok (if s then - a else a)
  end.

Definition py_int (v : json) : result Z :=
  match v with
  | JBool b => Ok (if b then 1 else 0)
  | JInt n => Ok n
  | JFloat f => int_of_float f
  | JStr s => match int_of_str s with
              | Some n => Ok n
              | None => Raise ValueError
              end
  | _ => Raise TypeError
  end.

(** ** Dates: [datetime.strptime(s, "%Y-%m-%d")], [datetime.now()], [>] *)

Record datetime : Type := mkDatetime {
  year : Z; month : Z; day : Z;
  hour : Z; minute : Z; second : Z; microsecond : Z
}.

Definition midnight (y m d : Z) : datetime := mkDatetime y m d 0 0 0 0.

Definition fields (t : datetime) : list Z :=
  [year t; month t; day t; hour t; minute t; second t; microsecond t].

Fixpoint lex_gtb (a b : list Z) : bool :=
  match a, b with
  | x :: a', y :: b' => (y <? x) || ((x =? y) && lex_gtb a' b')
  | _, _ => false
  end.

(** [a > b] on two [datetime] objects compares the fields in order. *)
Definition dt_gtb (a b : datetime) : bool := lex_gtb (fields a) (fields b).

(** The calendar date of a [datetime], for statements about days. *)
Definition date_of (t : datetime) : list Z := [year t; month t; day t].

Definition is_leap (y : Z) : bool :=
  (y mod 4 =? 0) && (negb (y mod 100 =? 0) || (y mod 400 =? 0)).

Definition days_in_month (y m : Z) : Z :=
  if m =? 2 then (if is_leap y then 29 else 28)
  else if (m =? 4) || (m =? 6) || (m =? 9) || (m =? 11) then 30
  else 31.

(** The month directive accepts [1[0-2]], [0[1-9]] or [[1-9]], tried in
    this order; the result is the month and the rest of the input. *)
Definition parse_month (s : string) : option (Z * string) :=
  match s with
  | String a (String b rest as tl) =>
      match digit_of a, digit_of b with
      | Some 1, Some y => if y <=? 2 then Some (10 + y, rest) else Some (1, tl)
      | Some 0, Some y => if 1 <=? y then Some (y, rest) else None
      | Some 0, None => None
      | Some x, _ => Some (x, tl)
      | None, _ => None
      end
  | String a EmptyString =>
      match digit_of a with
      | Some x => if 1 <=? x then Some (x, EmptyString) else None
      | None => None
      end
  | EmptyString => None
  end.

(** The day directive accepts [3[01]], [[12]\d], [0[1-9]], [[1-9]] or a
    space and [[1-9]], tried in this order. *)
Definition parse_day (s : string) : option (Z * string) :=
  match s with
  | String a tl =>
      let one := match digit_of a with
                 | Some x => if 1 <=? x then Some (x, tl) else None
                 | None => None
                 end in
      match tl with
      | String b rest =>
          match digit_of a, digit_of b with
          | Some 3, Some y => if y <=? 1 then Some (30 + y, rest) else one
          | Some 1, Some y => Some (10 + y, rest)
          | Some 2, Some y => Some (20 + y, rest)
          | Some 0, Some y => if 1 <=? y then Some (y, rest) else None
          | None, Some y =>
              if (Ascii.eqb a " " && (1 <=? y))%bool then Some (y, rest)
              else None
          | _, _ => one
          end
      | EmptyString => one
      end
  | EmptyString => None
  end.

Definition parse_year (s : string) : option (Z * string) :=
  match s with
  | String a (String b (String c (String d rest))) =>
      match digit_of a, digit_of b, digit_of c, digit_of d with
      | Some x1, Some x2, Some x3, Some x4 =>
          Some (1000 * x1 + 100 * x2 + 10 * x3 + x4, rest)
      | _, _, _, _ => None
      end
  | _ => None
  end.

(** [datetime.strptime(s, "%Y-%m-%d")] on a string; [None] stands for
    [ValueError] (no match, text left over, year 0, or a day the month
    does not have).  The time of day of the result is midnight. *)
Definition strptime (s : string) : option datetime :=
  match parse_year s with
  | Some (y, String "-" s1) =>
      match parse_month s1 with
      | Some (m, String "-" s2) =>
          match parse_day s2 with
          | Some (d, EmptyString) =>
              if (1 <=? y) && (d <=? days_in_month y m)
              then Some (midnight y m d) else None
          | _ => None
          end
      | _ => None
      end
  | _ => None
  end.

(** [strptime] on an arbitrary value: a value that is not a [str] is a
    [TypeError]. *)
Definition py_strptime (v : json) : result datetime :=
  match v with
  | JStr s => match strptime s with
              | Some t => Ok t
              | None => Raise ValueError
              end
  | _ => Raise TypeError
  end.

(** ** More of Python's strings *)

(** [s.strip()]. *)
Definition strip (s : string) : string := rstrip (lstrip s).

(** [s.split(sep)] for a separator of one character. *)
Fixpoint split_on (sep : ascii) (s : string) : list string :=
  match s with
  | EmptyString => [EmptyString]
  | String c rest =>
      if Ascii.eqb c sep then EmptyString :: split_on sep rest
      else match split_on sep rest with
           | x :: xs => String c x :: xs
           | [] => [String c EmptyString]
           end
  end.

Definition newline : ascii := ascii_of_nat 10.

Fixpoint zeros (n : nat) : string :=
  match n with
  | O => EmptyString
  | Datatypes.S n' => String "0" (zeros n')
  end.

(** [f"{n:0{width}d}"]: the decimal digits, padded with zeros after the
    sign up to [width] characters. *)
Definition format_0d (width : nat) (n : Z) : string :=
  let digits := NilZero.string_of_uint (N.to_uint (Z.abs_N n)) in
  if n <? 0
  then String "-" (zeros (width - 1 - String.length digits) ++ digits)
  else zeros (width - String.length digits) ++ digits.

Definition hex_digit (d : Z) : ascii :=
  nth (Z.to_nat d)
      ["0"; "1"; "2"; "3"; "4"; "5"; "6"; "7"; "8"; "9";
       "a"; "b"; "c"; "d"; "e"; "f"]%char "0"%char.

(** ['{:02x}'.format(b)] for a byte [b]. *)
Definition format_02x (b : Z) : string :=
  String (hex_digit (b / 16)) (String (hex_digit (b mod 16)) EmptyString).

(** ** The outside world and what a session does to it *)

(** What the program prints.  Each constructor stands for one message of
    the source; the denial messages carry the names the specification
    gives to the denial reasons.
    - [DocumentUnavailable f]: the fetch of file [f] failed
      (app_hub.py l.116, license.py l.151);
    - [NoConnection]: license.py l.187;
    - [MalformedDocument]: [users] or [apps] missing
      (app_hub.py l.130, license.py l.192);
    - [VersionTooOld], [MalformedVersion]: app_hub.py l.215 and l.218;
    - [IdentityNotFound]: app_hub.py l.224, license.py l.207;
    - [ApplicationUnknown], [UserNotEntitled]: app_hub.py l.233 and l.238,
      license.py l.213 and l.219;
    - [LicenseInactive]: app_hub.py l.252, license.py l.234;
    - [NoCurrentDate]: license.py l.240;
    - [LicenseExpired], [MalformedExpiry]: app_hub.py l.262 and l.269,
      license.py l.248 and l.257;
    - [AccessPermanent], [AccessUntil]: the two success lines of
      license.py, l.227 and l.253;
    - [CheckNotCalled]: app_hub.py l.281;
    - [ParameterNotFound]: app_hub.py l.342. *)
Inductive message : Type :=
| DocumentUnavailable (filename : string)
| NoConnection
| MalformedDocument
| VersionTooOld (current minimum : Z)
| MalformedVersion
| IdentityNotFound
| ApplicationUnknown (app : string)
| UserNotEntitled (user app : string)
| LicenseInactive
| NoCurrentDate
| LicenseExpired (expires : json)
| MalformedExpiry
| AccessPermanent (user : string) (level : json)
| AccessUntil (user : string) (level : json)
| CheckNotCalled
| ParameterNotFound (param : string).

Inductive event : Type :=
| EvFetch (filename : string)      (* an HTTP request for a file *)
| EvPrint (m : message)            (* a line on the console *)
| EvClipboard (hwid : string)      (* [_copy_hwid_to_clipboard] *)
| EvNow                            (* [datetime.now()] *)
| EvDateOnline.                    (* [_get_current_date_online] *)

(** The trace lists the events of a session, the latest first. *)
Definition is_fetch (e : event) : bool :=
  match e with EvFetch _ => true | _ => false end.

Definition is_fetch_of (f : string) (e : event) : bool :=
  match e with EvFetch g => String.eqb g f | _ => false end.


Definition fetch_count (tr : list event) : nat :=
  length (filter is_fetch tr).

Definition fetches_of (f : string) (tr : list event) : nat :=
  length (filter (is_fetch_of f) tr).

(** The world a session runs in.
    - [store k f]: the answer to the request for file [f] when [k] requests
      were made before it; [None] is any transport, status or parse
      failure.  The remote files may change between two requests.
    - [clock]: what [datetime.now()] returns.
    - [date_online]: what [_get_current_date_online] returns.
    - [py_format], [py_eq]: Python's [str(v)] and [a == b] on values that
      are not strings.  The code applies them to the server name only,
      which the documents give as a string; they are left open. *)
Record world : Type := mkWorld {
  store : nat -> string -> option json;
  clock : datetime;
  date_online : option string;
  py_format : json -> string;
  py_eq : json -> json -> bool
}.

(** [f"{name}.json"]. *)
Definition json_file (w : world) (name : json) : string :=
  match name with
  | JStr s => s ++ ".json"
  | v => py_format w v ++ ".json"
  end.

(** [a == b], where a string equals only an equal string. *)
Definition name_eq (w : world) (a b : json) : bool :=
  match a, b with
  | JStr x, JStr y => String.eqb x y
  | JStr _, _ => false
  | _, JStr _ => false
  | _, _ => py_eq w a b
  end.

(** ** State and exceptions *)

Section Monad.
Context {S : Type}.

Definition M (A : Type) : Type := S -> result A * S.

Definition ret {A} (a : A) : M A := fun s => (Ok a, s).

Definition bind {A B} (c : M A) (k : A -> M B) : M B :=
  fun s => match c s with
           | (Ok a, s') => k a s'
           | (Raise e, s') => (Raise e, s')
           end.

Definition lift {A} (r : result A) : M A := fun s => (r, s).

Definition modify (f : S -> S) : M unit := fun s => (Ok tt, f s).

Definition gets {A} (f : S -> A) : M A := fun s => (Ok (f s), s).
End Monad.

Notation "x <- c ;; k" := (bind c (fun x => k))
  (at level 61, c at next level, right associativity).
Notation "c ;;; k" := (bind c (fun _ => k))
  (at level 61, right associativity).

(** ** [class AppHub] (src/app_hub.py) *)

Module AppHub.

(** The fields of the object, and the trace of the session. *)
Record hub : Type := mkHub {
  app_name : string;
  current_version : string;
  timeout : Z;
  hwid : string;
  _licenses : json;
  _global_config : json;
  _server_config : json;
  _user_name : option string;
  _user_data : json;
  _server_name : json;
  trace : list event
}.

(** [__init__]; the hardware identifier comes from [_generate_hwid],
    which reads the machine. *)
Definition init (app version hw : string) : hub :=
  mkHub app version 10 hw JNull JNull JNull None JNull JNull [].

Definition set_licenses (v : json) (h : hub) : hub :=
  mkHub (app_name h) (current_version h) (timeout h) (hwid h)
        v (_global_config h) (_server_config h)
        (_user_name h) (_user_data h) (_server_name h) (trace h).

Definition set_global_config (v : json) (h : hub) : hub :=
  mkHub (app_name h) (current_version h) (timeout h) (hwid h)
        (_licenses h) v (_server_config h)
        (_user_name h) (_user_data h) (_server_name h) (trace h).

Definition set_server_config (v : json) (h : hub) : hub :=
  mkHub (app_name h) (current_version h) (timeout h) (hwid h)
        (_licenses h) (_global_config h) v
        (_user_name h) (_user_data h) (_server_name h) (trace h).

Definition set_user_name (v : option string) (h : hub) : hub :=
  mkHub (app_name h) (current_version h) (timeout h) (hwid h)
        (_licenses h) (_global_config h) (_server_config h)
        v (_user_data h) (_server_name h) (trace h).

Definition set_user_data (v : json) (h : hub) : hub :=
  mkHub (app_name h) (current_version h) (timeout h) (hwid h)
        (_licenses h) (_global_config h) (_server_config h)
        (_user_name h) v (_server_name h) (trace h).

Definition set_server_name (v : json) (h : hub) : hub :=
  mkHub (app_name h) (current_version h) (timeout h) (hwid h)
        (_licenses h) (_global_config h) (_server_config h)
        (_user_name h) (_user_data h) v (trace h).

Definition record_event (e : event) (h : hub) : hub :=
  mkHub (app_name h) (current_version h) (timeout h) (hwid h)
        (_licenses h) (_global_config h) (_server_config h)
        (_user_name h) (_user_data h) (_server_name h) (e :: trace h).

Definition emit (e : event) : M unit := modify (record_event e).

Definition print (m : message) : M unit := emit (EvPrint m).

(** l.107-117.  Every failure of the request is caught and gives [None]. *)
Definition _fetch_json (w : world) (filename : string) : M json :=
  k <- gets (fun h => fetch_count (trace h)) ;;
  emit (EvFetch filename) ;;;
  match store w k filename with
  | Some data => ret data
  | None => print (DocumentUnavailable filename) ;;; ret JNull
  end.

(** l.119-134. *)
Definition _load_licenses (w : world) : M bool :=
  cached <- gets _licenses ;;
  if negb (is_none cached) then ret true else
  data <- _fetch_json w "licenses.json" ;;
  modify (set_licenses data) ;;;
  if is_none data then ret false else
  has_users <- lift (py_in "users" data) ;;
  invalid <- (if negb has_users then ret true
              else has_apps <- lift (py_in "apps" data) ;;
                   ret (negb has_apps)) ;;
  if invalid : bool then
    print MalformedDocument ;;;
    modify (set_licenses JNull) ;;;
    ret false
  else ret true.

(** l.136-142. *)
Definition _load_global_config (w : world) : M bool :=
  cached <- gets _global_config ;;
  if negb (is_none cached) then ret true else
  data <- _fetch_json w "global.json" ;;
  modify (set_global_config data) ;;;
  ret (negb (is_none data)).

(** l.144-151. *)
Definition _load_server_config (w : world) (server_name : json) : M bool :=
  cached <- gets _server_config ;;
  current <- gets _server_name ;;
  if negb (is_none cached) && name_eq w current server_name then ret true
  else
    data <- _fetch_json w (json_file w server_name) ;;
    modify (set_server_config data) ;;;
    modify (set_server_name server_name) ;;;
    ret (negb (is_none data)).

(** The loop of l.160-172 over [users.items()]. *)
Fixpoint find_in_users (hw : string) (items : list (string * json))
  : option string :=
  match items with
  | [] => None
  | (user_name, user_info) :: rest =>
      match user_info with
      | JStr _ =>
          if eq_str user_info hw then Some user_name
          else find_in_users hw rest
      | JObj kvs =>
          let hwid := match lookup "hwid" kvs with
                      | Some v => v
                      | None => JNull
                      end in
          if eq_str hwid hw then Some user_name
          else find_in_users hw rest
      | _ => find_in_users hw rest
      end
  end.

(** l.153-172. *)
Definition _find_user (w : world) : M (option string) :=
  ok <- _load_licenses w ;;
  if negb ok then ret None else
  licenses <- gets _licenses ;;
  users <- lift (py_getitem licenses "users") ;;
  items <- lift (py_items users) ;;
  hw <- gets hwid ;;
  ret (find_in_users hw items).

(** l.174-194: the identifier is put on the clipboard or printed; every
    failure is caught. *)
Definition _copy_hwid_to_clipboard : M unit :=
  hw <- gets hwid ;;
  emit (EvClipboard hw).

(** l.207-219: the version check; [true] when the method returns [None]
    there.  [ValueError] is the only exception the block catches. *)
Definition version_gate (min_version : json) : M bool :=
  if is_none min_version then ret false else
  version <- gets current_version ;;
  match int_of_str version with
  | None => print MalformedVersion ;;; ret true
  | Some current =>
      match py_int min_version with
      | Ok minimum =>
          if current <? minimum
          then print (VersionTooOld current minimum) ;;; ret true
          else ret false
      | Raise ValueError => print MalformedVersion ;;; ret true
      | Raise e => lift (Raise e)
      end
  end.

(** l.244-270: the license record decides; the result is the access
    level, or [None] for a denial. *)
Definition evaluate_license (w : world) (user_data : json) : M json :=
  active <- lift (py_get user_data "active" JNull) ;;
  if is_true active
  then lift (py_get user_data "level" (JStr "TRY")) else
  expires <- lift (py_get user_data "expires" JNull) ;;
  if negb (truthy expires) then print LicenseInactive ;;; ret JNull else
  match py_strptime expires with
  | Ok expires_dt =>
      emit EvNow ;;;
      if dt_gtb (clock w) expires_dt
      then print (LicenseExpired expires) ;;; ret JNull
      else lift (py_get user_data "level" (JStr "TRY"))
  | Raise ValueError => print MalformedExpiry ;;; ret JNull
  | Raise e => lift (Raise e)
  end.

(** l.230-242: the application and the record of the user in it, then
    the evaluation of the record. *)
Definition check_application (w : world) (user_name : string) : M json :=
  licenses <- gets _licenses ;;
  apps <- lift (py_getitem licenses "apps") ;;
  app <- gets app_name ;;
  has_app <- lift (py_in app apps) ;;
  if negb has_app then print (ApplicationUnknown app) ;;; ret JNull else
  app_users <- lift (py_getitem apps app) ;;
  has_user <- lift (py_in user_name app_users) ;;
  if negb has_user
  then print (UserNotEntitled user_name app) ;;; ret JNull else
  user_data <- lift (py_getitem app_users user_name) ;;
  modify (set_user_data user_data) ;;;
  evaluate_license w user_data.

(** l.196-270. *)
Definition check_license (w : world) : M json :=
  ok <- _load_licenses w ;;
  if negb ok then ret JNull else
  licenses <- gets _licenses ;;
  min_version <- lift (py_get licenses "min_version" JNull) ;;
  too_old <- version_gate min_version ;;
  if too_old : bool then ret JNull else
  found <- _find_user w ;;
  match found with
  | None =>
      print IdentityNotFound ;;;
      _copy_hwid_to_clipboard ;;;
      ret JNull
  | Some user_name =>
      modify (set_user_name (Some user_name)) ;;;
      check_application w user_name
  end.

(** l.272-294. *)
Definition get_server : M json :=
  name <- gets _user_name ;;
  match name with
  | None => print CheckNotCalled ;;; ret JNull
  | Some user_name =>
      licenses <- gets _licenses ;;
      users <- lift (py_getitem licenses "users") ;;
      user_info <- lift (py_getitem users user_name) ;;
      match user_info with
      | JObj _ =>
          server <- lift (py_get user_info "server" JNull) ;;
          if truthy server then ret server else ret (JStr "global")
      | _ => ret (JStr "global")
      end
  end.

(** The loop of l.327-329 and l.337-339 over [config.values()]. *)
Fixpoint search_sections (param_name : string) (sections : list json)
  : option json :=
  match sections with
  | [] => None
  | JObj kvs :: rest =>
      match lookup param_name kvs with
      | Some v => Some v
      | None => search_sections param_name rest
      end
  | _ :: rest => search_sections param_name rest
  end.

(** l.323-329 and l.333-339: the top level first, then the sections;
    [None] when the search falls through. *)
Definition search_config (config : json) (param_name : string)
  : result (option json) :=
  match py_in param_name config with
  | Raise e => Raise e
  | Ok true =>
      match py_getitem config param_name with
      | Ok v => Ok (Some v)
      | Raise e => Raise e
      end
  | Ok false =>
      match py_values config with
      | Ok sections => Ok (search_sections param_name sections)
      | Raise e => Raise e
      end
  end.

(** l.313-316: [None] when the user tier has no value. *)
Definition search_user (param_name : string) : M (option json) :=
  user_data <- gets _user_data ;;
  if is_none user_data then ret None else
  has <- lift (py_in param_name user_data) ;;
  if has : bool
  then v <- lift (py_getitem user_data param_name) ;; ret (Some v)
  else ret None.

(** l.318-329. *)
Definition search_server (w : world) (param_name : string)
  : M (option json) :=
  server <- get_server ;;
  if negb (truthy server) then ret None else
  ok <- _load_server_config w server ;;
  if negb ok then ret None else
  config <- gets _server_config ;;
  lift (search_config config param_name).

(** l.331-339. *)
Definition search_global (w : world) (param_name : string) (fallback : bool)
  : M (option json) :=
  if negb fallback then ret None else
  ok <- _load_global_config w ;;
  if negb ok then ret None else
  config <- gets _global_config ;;
  lift (search_config config param_name).

(** l.296-343. *)
Definition get (w : world) (param_name : string) (fallback : bool) : M json :=
  user <- search_user param_name ;;
  match user with
  | Some v => ret v
  | None =>
      server <- search_server w param_name ;;
      match server with
      | Some v => ret v
      | None =>
          global <- search_global w param_name fallback ;;
          match global with
          | Some v => ret v
          | None => print (ParameterNotFound param_name) ;;; ret JNull
          end
      end
  end.

(** l.345-347. *)
Definition get_hwid : M string := gets hwid.

(** What [debug_all_users] prints, line by line:
    - [Rule]: the line of 60 ["="] (l.354, l.356, l.384);
    - [Title app]: l.355;
    - [AppMissing app]: l.360;
    - [Row user level server status]: l.382, with the values the line
      formats. *)
Inductive status : Type :=
| Active
| Until (expires : json).

Inductive line : Type :=
| Rule
| Title (app : string)
| AppMissing (app : string)
| Row (user : string) (level server : json) (st : status).

(** Lines printed so far, and how the code went on: a result, or the
    exception that ended it. *)
Definition out (A : Type) : Type := list line * result A.

Definition out_bind {A B} (c : out A) (k : A -> out B) : out B :=
  match c with
  | (ls, Ok a) => let (ls', r) := k a in ((ls ++ ls')%list, r)
  | (ls, Raise e) => (ls, Raise e)
  end.

Definition say (l : line) : out unit := ([l], Ok tt).

Definition try_ {A} (r : result A) : out A := ([], r).

(** A format specification such as [{level:3}] applies to strings and
    numbers; [None], a list and a dict raise [TypeError]. *)
Definition formattable (v : json) : bool :=
  match v with
  | JNull | JArr _ | JObj _ => false
  | _ => true
  end.

(** l.371-378: the server shown for a user. *)
Definition shown_server (users_info : json) (user_name : string)
  : result json :=
  match py_in user_name users_info with
  | Raise e => Raise e
  | Ok false => Ok (JStr "N/A")
  | Ok true =>
      match py_getitem users_info user_name with
      | Raise e => Raise e
      | Ok (JObj kvs) =>
          match py_get (JObj kvs) "server" JNull with
          | Raise e => Raise e
          | Ok server =>
              if truthy server then Ok server else Ok (JStr "global")
          end
      | Ok _ => Ok (JStr "N/A")
      end
  end.

(** l.367-382: one turn of the loop. *)
Definition debug_row (users_info : json) (user_name : string)
           (user_data : json) : out unit :=
  out_bind (try_ (py_get user_data "level" (JStr "TRY"))) (fun level =>
  out_bind (try_ (py_get user_data "active" (JBool false))) (fun active =>
  out_bind (try_ (py_get user_data "expires" (JStr "N/A"))) (fun expires =>
  out_bind (try_ (shown_server users_info user_name)) (fun server =>
  let st := if truthy active then Active else Until expires in
  if formattable level && formattable server
  then say (Row user_name level server st)
  else try_ (Raise TypeError))))).

(** l.366-382: the loop over [app_users.items()]. *)
Fixpoint debug_rows (users_info : json) (items : list (string * json))
  : out unit :=
  match items with
  | [] => ([], Ok tt)
  | (user_name, user_data) :: rest =>
      out_bind (debug_row users_info user_name user_data)
               (fun _ => debug_rows users_info rest)
  end.

(** l.354-384, once the licenses are loaded. *)
Definition debug_table (licenses : json) (app : string) : out unit :=
  out_bind (say Rule) (fun _ =>
  out_bind (say (Title app)) (fun _ =>
  out_bind (say Rule) (fun _ =>
  out_bind (try_ (py_get licenses "apps" (JObj []))) (fun apps =>
  out_bind (try_ (py_in app apps)) (fun has_app =>
  if negb has_app then say (AppMissing app) else
  out_bind (try_ (py_getitem apps app)) (fun app_users =>
  out_bind (try_ (py_get licenses "users" (JObj []))) (fun users_info =>
  out_bind (try_ (py_items app_users)) (fun items =>
  out_bind (debug_rows users_info items) (fun _ =>
  say Rule))))))))).

(** l.349-384.  The lines of the table are the value; what the load of
    the licenses prints goes to the trace. *)
Definition debug_all_users (w : world) (h : hub) : out unit * hub :=
  match _load_licenses w h with
  | (Ok true, h1) => (debug_table (_licenses h1) (app_name h1), h1)
  | (Ok false, h1) => (([], Ok tt), h1)
  | (Raise e, h1) => (([], Raise e), h1)
  end.

End AppHub.

(** ** [class LicenseManager] (src/license.py) *)

Module LicenseManager.

(** The object has no mutable field: the state of a session is its
    trace. *)
Record manager : Type := mkManager {
  app_name : string;
  timeout : Z;
  hwid : string
}.

(** [__init__], l.40-44: the identifier is a constant. *)
Definition init (app : string) : manager :=
  mkManager app 10
    "24e00839c478ec63017f05a0453532ba000d3d8f50767befee1eb934ab14caff".

Definition emit (e : event) : M (S := list event) unit := modify (cons e).

Definition print (m : message) : M unit := emit (EvPrint m).

(** l.140-152: the licenses file, at the address [AppHub] reads it from. *)
Definition _fetch_licenses (w : world) : M json :=
  k <- gets fetch_count ;;
  emit (EvFetch "licenses.json") ;;;
  match store w k "licenses.json" with
  | Some data => ret data
  | None => print (DocumentUnavailable "licenses.json") ;;; ret JNull
  end.

(** l.102-138: the date of a remote time service, or [None]. *)
Definition _get_current_date_online (w : world) : M (option string) :=
  emit EvDateOnline ;;;
  ret (date_online w).

(** l.154-174. *)
Definition _copy_hwid_to_clipboard (m : manager) : M unit :=
  emit (EvClipboard (hwid m)).

(** The loop of l.200-204 over [users.items()]. *)
Fixpoint find_in_users (hw : string) (items : list (string * json))
  : option string :=
  match items with
  | [] => None
  | (name, hwid) :: rest =>
      if eq_str hwid hw then Some name else find_in_users hw rest
  end.

(** l.224-258: the license record decides. *)
Definition evaluate_license (w : world) (user_name : string)
           (license_info : json) : M json :=
  active <- lift (py_get license_info "active" JNull) ;;
  if is_true active then
    level <- lift (py_get license_info "level" (JStr "TRY")) ;;
    print (AccessPermanent user_name level) ;;;
    ret level
  else
  expires <- lift (py_get license_info "expires" JNull) ;;
  if negb (truthy expires) then print LicenseInactive ;;; ret JNull else
  current_date <- _get_current_date_online w ;;
  match current_date with
  | None => print NoCurrentDate ;;; ret JNull
  | Some current_date =>
      match py_strptime expires with
      | Ok expires_dt =>
          match strptime current_date with
          | Some current_dt =>
              if dt_gtb current_dt expires_dt
              then print (LicenseExpired expires) ;;; ret JNull
              else
                level <- lift (py_get license_info "level" (JStr "TRY")) ;;
                print (AccessUntil user_name level) ;;;
                ret level
          | None => print MalformedExpiry ;;; ret JNull
          end
      | Raise ValueError => print MalformedExpiry ;;; ret JNull
      | Raise e => lift (Raise e)
      end
  end.

(** l.176-258. *)
Definition check_license (w : world) (m : manager) : M json :=
  licenses_data <- _fetch_licenses w ;;
  if is_none licenses_data then
    print NoConnection ;;;
    _copy_hwid_to_clipboard m ;;;
    ret JNull
  else
  has_users <- lift (py_in "users" licenses_data) ;;
  invalid <- (if negb has_users then ret true
              else has_apps <- lift (py_in "apps" licenses_data) ;;
                   ret (negb has_apps)) ;;
  if invalid : bool then
    print MalformedDocument ;;;
    _copy_hwid_to_clipboard m ;;;
    ret JNull
  else
  users <- lift (py_getitem licenses_data "users") ;;
  apps <- lift (py_getitem licenses_data "apps") ;;
  items <- lift (py_items users) ;;
  match find_in_users (hwid m) items with
  | None =>
      print IdentityNotFound ;;;
      _copy_hwid_to_clipboard m ;;;
      ret JNull
  | Some user_name =>
      has_app <- lift (py_in (app_name m) apps) ;;
      if negb has_app
      then print (ApplicationUnknown (app_name m)) ;;; ret JNull else
      app_users <- lift (py_getitem apps (app_name m)) ;;
      has_user <- lift (py_in user_name app_users) ;;
      if negb has_user
      then print (UserNotEntitled user_name (app_name m)) ;;; ret JNull else
      license_info <- lift (py_getitem app_users user_name) ;;
      evaluate_license w user_name license_info
  end.

(** What the time services answer.
    - [worldtime], [worldclock]: the parsed answer of the two services of
      l.105-108, [None] when the request or the parsing raises;
    - [github_date]: the [Date] header of the licenses file, [Some None]
      when the answer has none, [None] when the request raises;
    - [parsedate]: [email.utils.parsedate], reduced to the year, month and
      day of its result. *)
Record time_sources : Type := mkSources {
  worldtime : option json;
  worldclock : option json;
  github_date : option (option string);
  parsedate : string -> option (Z * Z * Z)
}.

(** l.116-120, inside the [try] of one service: the date part of the
    time stamp, or [None] when the loop goes on to the next service. *)
Definition date_of_answer (data : json) : option string :=
  match py_in "datetime" data with
  | Ok true =>
      match py_getitem data "datetime" with
      | Ok (JStr stamp) => Some (hd EmptyString (split_on "T" stamp))
      | _ => None
      end
  | Ok false =>
      match py_in "currentDateTime" data with
      | Ok true =>
          match py_getitem data "currentDateTime" with
          | Ok (JStr stamp) => Some (hd EmptyString (split_on "T" stamp))
          | _ => None
          end
      | _ => None
      end
  | Raise _ => None
  end.

(** l.110-122: the loop over the services. *)
Fixpoint first_date (answers : list (option json)) : option string :=
  match answers with
  | [] => None
  | None :: rest => first_date rest
  | Some data :: rest =>
      match date_of_answer data with
      | Some date => Some date
      | None => first_date rest
      end
  end.

(** How [_get_current_date_online] ends: with a date, with [None], or
    with [None] after the message of l.137. *)
Inductive date_outcome : Type :=
| DateFound (date : string)
| DateMissing
| DateError.

(** l.102-138, over the answers of the services. *)
Definition _get_current_date_online_body (src : time_sources)
  : date_outcome :=
  match first_date [worldtime src; worldclock src] with
  | Some date => DateFound date
  | None =>
      match github_date src with
      | None => DateError
      | Some None => DateMissing
      | Some (Some date_header) =>
          if negb (truthy (JStr date_header)) then DateMissing else
          match parsedate src date_header with
          | None => DateMissing
          | Some (y, m, d) =>
              DateFound (format_0d 4 y ++ "-" ++ format_0d 2 m
                                     ++ "-" ++ format_0d 2 d)
          end
      end
  end.

(** The value the method returns. *)
Definition returned_date (o : date_outcome) : option string :=
  match o with
  | DateFound date => Some date
  | _ => None
  end.

(** l.260-262. *)
Definition get_hwid (m : manager) : string := hwid m.

End LicenseManager.

(** ** [_generate_hwid] (app_hub.py l.52-105, license.py l.46-100) *)

(** What the method reads from the machine.
    - [system]: [platform.system()];
    - [wmic cmd]: the decoded output of the command, [None] when the call
      or the decoding raises;
    - [cpuinfo]: the lines of [/proc/cpuinfo], [None] when the file cannot
      be read;
    - [getnode]: [uuid.getnode()], [None] when it raises;
    - [node]: [platform.node()];
    - [sha256]: [hashlib.sha256(s.encode()).hexdigest()]. *)
Record machine : Type := mkMachine {
  system : string;
  wmic : string -> option string;
  cpuinfo : option (list string);
  getnode : option Z;
  node : string;
  sha256 : string -> string
}.

(** [output.decode().split('\n')[1].strip()]; [None] when the output has
    one line only ([IndexError], caught). *)
Definition second_line (output : string) : option string :=
  option_map strip (nth_error (split_on newline output) 1).

(** The answer of a [wmic] command on Windows; [None] when nothing is
    appended. *)
Definition wmic_value (m : machine) (cmd : string) : option string :=
  if String.eqb (system m) "Windows"
  then match wmic m cmd with
       | Some output => second_line output
       | None => None
       end
  else None.

(** l.63-67: the first line with ['Serial'] decides. *)
Fixpoint serial_of (lines : list string) : option string :=
  match lines with
  | [] => None
  | l :: rest =>
      if is_substring "Serial" l
      then option_map strip (nth_error (split_on ":" l) 1)
      else serial_of rest
  end.

(** l.56-69. *)
Definition cpu_id (m : machine) : option string :=
  if String.eqb (system m) "Windows"
  then wmic_value m "wmic cpu get processorid"
  else if String.eqb (system m) "Linux"
       then match cpuinfo m with
            | Some lines => serial_of lines
            | None => None
            end
       else None.

(** l.92-93: six bytes of the node number, taken two bits apart, the
    last first. *)
Definition mac_address (n : Z) : string :=
  String.concat ":"
    (rev (map (fun elements => format_02x (Z.land (Z.shiftr n elements) 255))
              [0; 2; 4; 6; 8; 10])).

Definition to_list {A} (o : option A) : list A :=
  match o with Some a => [a] | None => [] end.

(** l.54-96: the identifiers collected. *)
Definition identifiers (m : machine) : list string :=
  (to_list (cpu_id m)
   ++ to_list (wmic_value m "wmic baseboard get serialnumber")
   ++ to_list (wmic_value m "wmic diskdrive get serialnumber")
   ++ to_list (option_map mac_address (getnode m)))%list.

(** l.52-105. *)
Definition _generate_hwid (m : machine) : string :=
  let ids := match identifiers m with
             | [] => [node m]
             | ids => ids
             end in
  sha256 m (String.concat "-" ids).

(** ** A sample repository of documents *)

Module Sample.

(** Pavel and Olga are registered in the legacy form, Evgen in the
    record form with a server of his own. *)
Definition users : list (string * json) :=
  [("Pavel", JStr "hw-pavel");
   ("Evgen", JObj [("hwid", JStr "hw-evgen"); ("server", JStr "alure")]);
   ("Olga", JStr "hw-olga")].

Definition apps : list (string * json) :=
  [("joystick",
    JObj [("Pavel", JObj [("level", JStr "PRO");
                          ("active", JBool false);
                          ("expires", JStr "2025-12-31")]);
          ("Evgen", JObj [("active", JBool true);
                          ("level", JStr "DEV");
                          ("delay", JInt 7)]);
          ("Olga", JObj [("active", JBool true);
                         ("expires", JStr "2020-01-01")])])].

Definition licenses : list (string * json) :=
  [("min_version", JStr "5"); ("users", JObj users); ("apps", JObj apps)].

Definition global_json : list (string * json) :=
  [("offsets", JObj [("delay", JInt 1); ("z", JInt 8)]);
   ("delay", JInt 2); ("x", JInt 9)].

Definition alure_json : list (string * json) :=
  [("patterns", JObj [("x", JInt 3)]); ("y", JInt 4)].

Definition files (global : list (string * json)) (f : string)
  : option json :=
  if String.eqb f "licenses.json" then Some (JObj licenses)
  else if String.eqb f "global.json" then Some (JObj global)
  else if String.eqb f "alure.json" then Some (JObj alure_json)
  else None.

(** The files never change; the two runtime functions are not reached,
    the server names of the sample being strings. *)
Definition world_with (global : list (string * json)) (now : datetime)
  : world :=
  mkWorld (fun _ => files global) now (Some "2025-12-31")
          (fun _ => "") (fun _ _ => false).

Definition noon : datetime := mkDatetime 2025 12 31 12 0 0 0.

Definition w : world := world_with global_json noon.

Definition pavel : AppHub.hub := AppHub.init "joystick" "5" "hw-pavel".
Definition evgen : AppHub.hub := AppHub.init "joystick" "5" "hw-evgen".
Definition olga : AppHub.hub := AppHub.init "joystick" "5" "hw-olga".

(** The object once the licenses file is in its slot. *)
Definition loaded (h : AppHub.hub) : AppHub.hub :=
  snd (AppHub._load_licenses w h).

(** The object after a license check. *)
Definition checked (h : AppHub.hub) : AppHub.hub :=
  snd (AppHub.check_license w h).

End Sample.

(** * Properties *)

(** ** Vocabulary of the statements *)



(** [record.get(k)]. *)
Definition field (k : string) (record : list (string * json)) : json :=
  match lookup k record with
  | Some v => v
  | None => JNull
  end.

(** [record.get('level', 'TRY')]. *)
Definition level_of (record : list (string * json)) : json :=
  match lookup "level" record with
  | Some v => v
  | None => JStr "TRY"
  end.

(** The server name of a [users] entry as the specification words it:
    the [server] field of an entry in the record form when it is not
    empty, and ["global"] otherwise. *)
Definition server_of (info : json) : json :=
  match info with
  | JObj kvs =>
      if truthy (field "server" kvs) then field "server" kvs
      else JStr "global"
  | _ => JStr "global"
  end.



(** A computation that neither reads nor writes the global slot. *)
Definition ignores_global {A : Type} (c : M (S := AppHub.hub) A) : Prop :=
  forall g h,
    c (AppHub.set_global_config g h) =
    (fst (c h), AppHub.set_global_config g (snd (c h))).




(** The search of one tier as the specification words it: the top-level
    key if there is one, else the first section, in document order, that
    is a mapping and has the key. *)
Fixpoint first_section (param : string) (doc : list (string * json))
  : option json :=
  match doc with
  | [] => None
  | (_, JObj kvs) :: rest =>
      match lookup param kvs with
      | Some v => Some v
      | None => first_section param rest
      end
  | _ :: rest => first_section param rest
  end.

Definition tier_lookup (param : string) (doc : list (string * json))
  : option json :=
  match lookup param doc with
  | Some v => Some v
  | None => first_section param doc
  end.

(** The user tier has no value for [param]: no record was captured, or
    the record lacks the key. *)
Definition user_misses (param : string) (h : AppHub.hub) : Prop :=
  AppHub._user_data h = JNull \/
  exists record,
    AppHub._user_data h = JObj record /\ lookup param record = None.

(** What a request for file [f] gives in state [h], and the state after
    it. *)
Definition fetched (w : world) (f : string) (h : AppHub.hub) : json :=
  match store w (fetch_count (AppHub.trace h)) f with
  | Some data => data
  | None => JNull
  end.

Definition after_fetch (w : world) (f : string) (h : AppHub.hub)
  : AppHub.hub :=
  match store w (fetch_count (AppHub.trace h)) f with
  | Some _ => AppHub.record_event (EvFetch f) h
  | None =>
      AppHub.record_event (EvPrint (DocumentUnavailable f))
        (AppHub.record_event (EvFetch f) h)
  end.

(** Two worlds that differ at most in the content of [global.json]. *)
Definition agree_except_global (w1 w2 : world) : Prop :=
  (forall k f, f <> "global.json" -> store w1 k f = store w2 k f) /\
  (forall v, py_format w1 v = py_format w2 v) /\
  (forall a b, py_eq w1 a b = py_eq w2 a b).



(** The machine [m] under another host name. *)
Definition with_node (name : string) (m : machine) : machine :=
  mkMachine (system m) (wmic m) (cpuinfo m) (getnode m) name (sha256 m).

(** A value that is not a string. *)
Definition not_str (v : json) : bool :=
  match v with
  | JStr _ => false
  | _ => true
  end.

(** The licenses slot holds a document. *)
Definition licensed (h : AppHub.hub) : Prop :=
  is_none (AppHub._licenses h) = false.

(** What a license check reads of the object. *)
Definition check_inputs (h : AppHub.hub) : string * string * string * json :=
  (AppHub.app_name h, AppHub.current_version h, AppHub.hwid h,
   AppHub._licenses h).

(** A computation that, run with the licenses in their slot, leaves the
    inputs of the check as they are, only adds events that are not
    requests to the trace, and gives the same value on any object with
    the same inputs. *)
Definition settled {A : Type} (c : M (S := AppHub.hub) A) : Prop :=
  forall h,
    licensed h ->
    check_inputs (snd (c h)) = check_inputs h /\
    (exists evs,
        AppHub.trace (snd (c h)) = (evs ++ AppHub.trace h)%list /\
        filter is_fetch evs = []) /\
    (forall h', check_inputs h' = check_inputs h -> fst (c h') = fst (c h)).

(** What [get] leaves alone: the license context of the object. *)
Definition license_context (h : AppHub.hub)
  : string * string * string * json * option string * json :=
  (AppHub.app_name h, AppHub.current_version h, AppHub.hwid h,
   AppHub._licenses h, AppHub._user_name h, AppHub._user_data h).

(** A computation that leaves the license context as it is and adds to
    the trace at most [n] requests. *)
Definition bounded {A : Type} (n : nat) (c : M (S := AppHub.hub) A) : Prop :=
  forall h,
    license_context (snd (c h)) = license_context h /\
    exists evs,
      AppHub.trace (snd (c h)) = (evs ++ AppHub.trace h)%list /\
      (length (filter is_fetch evs) <= n)%nat.


(** [None] or a dict. *)
Definition mapping_or_none (v : json) : bool :=
  match v with
  | JNull | JObj _ => true
  | _ => false
  end.

(** The date [_get_current_date_online] builds from the [Date] header
    (l.132). *)
Definition header_date (y m d : Z) : string :=
  format_0d 4 y ++ "-" ++ format_0d 2 m ++ "-" ++ format_0d 2 d.

(** The checks of the round trip of one field, for the ranges below. *)
Definition year_ok (y : Z) : bool :=
  match parse_year (format_0d 4 y) with
  | Some (y', EmptyString) => y' =? y
  | _ => false
  end.

Definition month_ok (m : Z) : bool :=
  match format_0d 2 m with
  | String a (String b EmptyString) =>
      match parse_month (String a (String b EmptyString)) with
      | Some (m', EmptyString) => m' =? m
      | _ => false
      end
  | _ => false
  end.

Definition day_ok (d : Z) : bool :=
  match format_0d 2 d with
  | String a (String b EmptyString) =>
      match parse_day (String a (String b EmptyString)) with
      | Some (d', EmptyString) => d' =? d
      | _ => false
      end
  | _ => false
  end.

(** [c in s] for a character. *)
Fixpoint has_char (c : ascii) (s : string) : bool :=
  match s with
  | EmptyString => false
  | String c' rest => Ascii.eqb c' c || has_char c rest
  end.

(** The user a line of the table is about. *)
Definition row_user (l : AppHub.line) : option string :=
  match l with
  | AppHub.Row user _ _ _ => Some user
  | _ => None
  end.

(** ** The monad, step by step *)

Ltac solve_misses :=
  unfold user_misses; right; eexists; split; reflexivity.




Ltac mstep :=
  unfold bind, gets, lift, ret, modify in *; simpl in *.

Ltac inv H := inversion H; subst; clear H.

Lemma has_key_lookup k kvs v : lookup k kvs = Some v -> has_key k kvs = true.
Proof. unfold has_key. now intros ->. Qed.

Lemma has_key_none k kvs : lookup k kvs = None -> has_key k kvs = false.
Proof. unfold has_key. now intros ->. Qed.

Section Loaders.
Import AppHub.
Variable w : world.

Lemma load_licenses_cached (h : hub) :
  is_none (_licenses h) = false -> _load_licenses w h = (Ok true, h).
Proof.
  intros Hc. unfold _load_licenses. mstep. now rewrite Hc.
Qed.

(** A successful load leaves a document in the slot, touches no other
    field and adds at most one request to the trace. *)
Lemma load_licenses_true (h h1 : hub) :
  _load_licenses w h = (Ok true, h1) ->
  is_none (_licenses h1) = false /\
  app_name h1 = app_name h /\ current_version h1 = current_version h /\
  hwid h1 = hwid h /\ _user_name h1 = _user_name h /\
  _user_data h1 = _user_data h /\
  (trace h1 = trace h \/ trace h1 = EvFetch "licenses.json" :: trace h).
Proof.
  unfold _load_licenses, _fetch_json, print, emit. mstep.
  destruct (is_none (_licenses h)) eqn:Hc; simpl.
  - destruct (store w (fetch_count (trace h)) "licenses.json") as [d|];
      simpl; [|discriminate].
    destruct d; simpl; try discriminate.
    + destruct (is_substring "users" s); simpl;
        [destruct (is_substring "apps" s); simpl|]; try discriminate.
      intros H; inv H; simpl; auto 10.
    + destruct (existsb _ l); simpl;
        [destruct (existsb _ l); simpl|]; try discriminate.
      intros H; inv H; simpl; auto 10.
    + destruct (has_key "users" kvs); simpl;
        [destruct (has_key "apps" kvs); simpl|]; try discriminate.
      intros H; inv H; simpl; auto 10.
  - intros H; inv H. auto 10.
Qed.
End Loaders.

Section LicenseCheck.
Import AppHub.
Variable w : world.



End LicenseCheck.

Section ManagerCheck.
Import LicenseManager.
Variable w : world.

End ManagerCheck.

(** ** An active license *)



(** ** The version check *)



(** ** A licenses document without [users] or [apps] *)

(** C8.  A fetched licenses document (a mapping) that lacks [users] or
    [apps] is invalid as a whole.  [AppHub.check_license] returns [None]
    without raising, prints [MalformedDocument] and empties the slot
    again, so that the object is as after a failed fetch, where the
    message is [DocumentUnavailable]: the two outcomes differ in the
    message alone.  [LicenseManager.check_license] returns [None] without
    raising, prints [MalformedDocument] and shows the identifier. *)
Theorem malformed_document_denied :
  forall (w : world) (doc : list (string * json)),
    lookup "users" doc = None \/ lookup "apps" doc = None ->
    (forall h : AppHub.hub,
        AppHub._licenses h = JNull ->
        store w (fetch_count (AppHub.trace h)) "licenses.json"
        = Some (JObj doc) ->
        AppHub.check_license w h =
        (Ok JNull,
         AppHub.record_event (EvPrint MalformedDocument)
           (AppHub.record_event (EvFetch "licenses.json") h))) /\
    (forall h : AppHub.hub,
        AppHub._licenses h = JNull ->
        store w (fetch_count (AppHub.trace h)) "licenses.json" = None ->
        AppHub.check_license w h =
        (Ok JNull,
         AppHub.record_event (EvPrint (DocumentUnavailable "licenses.json"))
           (AppHub.record_event (EvFetch "licenses.json") h))) /\
    (forall (m : LicenseManager.manager) (tr : list event),
        store w (fetch_count tr) "licenses.json" = Some (JObj doc) ->
        LicenseManager.check_license w m tr =
        (Ok JNull,
         EvClipboard (LicenseManager.hwid m) :: EvPrint MalformedDocument
           :: EvFetch "licenses.json" :: tr)).
Proof.
  intros w doc Hmiss.
  assert (Hinv : (if negb (has_key "users" doc) then true
                  else negb (has_key "apps" doc)) = true).
  { destruct Hmiss as [H | H]; rewrite (has_key_none _ _ H); simpl; auto.
    now destruct (has_key "users" doc). }
  split; [|split].
  - intros h Hnull Hs.
    unfold AppHub.check_license, AppHub._load_licenses, AppHub._fetch_json,
      AppHub.print, AppHub.emit. mstep.
    rewrite Hnull. simpl. rewrite Hs. simpl.
    destruct (has_key "users" doc); simpl in *.
    + rewrite Hinv. simpl. destruct h; simpl in *; now subst.
    + destruct h; simpl in *; now subst.
  - intros h Hnull Hs.
    unfold AppHub.check_license, AppHub._load_licenses, AppHub._fetch_json,
      AppHub.print, AppHub.emit. mstep.
    rewrite Hnull. simpl. rewrite Hs. simpl.
    destruct h; simpl in *; now subst.
  - intros m tr Hs.
    unfold LicenseManager.check_license, LicenseManager._fetch_licenses,
      LicenseManager._copy_hwid_to_clipboard, LicenseManager.print,
      LicenseManager.emit. mstep.
    rewrite Hs. simpl.
    destruct (has_key "users" doc); simpl in *; [now rewrite Hinv|reflexivity].
Qed.

Lemma malformed_document_denied_witness :
  let w := mkWorld (fun _ _ => Some (JObj [("users", JObj [])]))
                   Sample.noon None (fun _ => "") (fun _ _ => false) in
  AppHub.check_license w Sample.pavel =
  (Ok JNull,
   AppHub.record_event (EvPrint MalformedDocument)
     (AppHub.record_event (EvFetch "licenses.json") Sample.pavel)) /\
  LicenseManager.check_license w (LicenseManager.init "joystick") [] =
  (Ok JNull,
   [EvClipboard (LicenseManager.hwid (LicenseManager.init "joystick"));
    EvPrint MalformedDocument; EvFetch "licenses.json"]).
Proof.
  intros w.
  destruct (malformed_document_denied w [("users", JObj [])]
              (or_intror eq_refl)) as (A & _ & B).
  split.
  - apply (A Sample.pavel); reflexivity.
  - apply (B (LicenseManager.init "joystick") []); reflexivity.
Defined.

(** ** Identity lookup *)






(** ** Expiry *)

Lemma strptime_midnight (s : string) (t : datetime) :
  strptime s = Some t -> t = midnight (year t) (month t) (day t).
Proof.
  unfold strptime.
  destruct (parse_year s) as [[y [|c s1]]|]; try discriminate.
  destruct c as [[] [] [] [] [] [] [] []]; try discriminate.
  destruct (parse_month s1) as [[m [|c s2]]|]; try discriminate.
  destruct c as [[] [] [] [] [] [] [] []]; try discriminate.
  destruct (parse_day s2) as [[d [|]]|]; try discriminate.
  destruct ((1 <=? y) && (d <=? days_in_month y m)); try discriminate.
  now intros H; inv H.
Qed.

(** Between two midnights, [>] compares the calendar dates. *)
Lemma dt_gtb_midnight (y m d y' m' d' : Z) :
  dt_gtb (midnight y m d) (midnight y' m' d') =
  lex_gtb [y; m; d] [y'; m'; d'].
Proof.
  unfold dt_gtb, fields, midnight. simpl.
  now rewrite !andb_false_r, !orb_false_r.
Qed.

(** On the day of expiry, any moment after midnight is later than the
    parsed date. *)
Lemma dt_gtb_same_day (now : datetime) (y m d : Z) :
  date_of now = [y; m; d] ->
  0 <= hour now -> 0 <= minute now -> 0 <= second now ->
  0 <= microsecond now ->
  0 < hour now + minute now + second now + microsecond now ->
  dt_gtb now (midnight y m d) = true.
Proof.
  unfold date_of. intros Hd Hh Hm Hs Hu Hpos. inv Hd.
  unfold dt_gtb, fields, midnight. simpl.
  rewrite !Z.ltb_irrefl, !Z.eqb_refl. simpl.
  destruct (0 <? hour now) eqn:E1; [reflexivity|].
  apply Z.ltb_ge in E1. assert (hour now = 0) as -> by lia. simpl.
  destruct (0 <? minute now) eqn:E2; [reflexivity|].
  apply Z.ltb_ge in E2. assert (minute now = 0) as -> by lia. simpl.
  destruct (0 <? second now) eqn:E3; [reflexivity|].
  apply Z.ltb_ge in E3. assert (second now = 0) as -> by lia. simpl.
  destruct (0 <? microsecond now) eqn:E4; [reflexivity|].
  apply Z.ltb_ge in E4. lia.
Qed.

Lemma strptime_nonempty (s : string) (t : datetime) :
  strptime s = Some t -> truthy (JStr s) = true.
Proof. destruct s; [discriminate | reflexivity]. Qed.

(** [AppHub]: a record that is not active and has a well-formed [expires]
    is denied exactly when the clock reading, time of day included, is
    later than midnight of the day of expiry. *)
Lemma hub_expiry (w : world) (h : AppHub.hub) (record : list (string * json))
      (expires : string) (t : datetime) :
  is_true (field "active" record) = false ->
  lookup "expires" record = Some (JStr expires) ->
  strptime expires = Some t ->
  AppHub.evaluate_license w (JObj record) h =
  if dt_gtb (clock w) t
  then (Ok JNull,
        AppHub.record_event (EvPrint (LicenseExpired (JStr expires)))
          (AppHub.record_event EvNow h))
  else (Ok (level_of record), AppHub.record_event EvNow h).
Proof.
  intros Ha He Ht.
  unfold AppHub.evaluate_license, AppHub.print, AppHub.emit. mstep.
  unfold field in Ha.
  assert (Hnz := strptime_nonempty _ _ Ht). simpl in Hnz.
  destruct (lookup "active" record) as [a|]; simpl; try rewrite Ha; simpl;
    rewrite He; simpl; rewrite Hnz; simpl; rewrite Ht; simpl;
    unfold level_of;
    destruct (dt_gtb (clock w) t); try reflexivity;
    now destruct (lookup "level" record).
Qed.

(** [AppHub], on the day of expiry: at any moment after midnight the
    record is denied. *)
Lemma hub_expiry_day_denied (w : world) (h : AppHub.hub)
      (record : list (string * json)) (expires : string) (t : datetime) :
  is_true (field "active" record) = false ->
  lookup "expires" record = Some (JStr expires) ->
  strptime expires = Some t ->
  date_of (clock w) = date_of t ->
  0 <= hour (clock w) -> 0 <= minute (clock w) -> 0 <= second (clock w) ->
  0 <= microsecond (clock w) ->
  0 < hour (clock w) + minute (clock w) + second (clock w)
      + microsecond (clock w) ->
  AppHub.evaluate_license w (JObj record) h =
  (Ok JNull,
   AppHub.record_event (EvPrint (LicenseExpired (JStr expires)))
     (AppHub.record_event EvNow h)).
Proof.
  intros Ha He Ht Hd Hh Hm Hs Hu Hpos.
  rewrite (hub_expiry w h record expires t Ha He Ht).
  rewrite (strptime_midnight _ _ Ht).
  now rewrite (dt_gtb_same_day (clock w) (year t) (month t) (day t)).
Qed.

(** [LicenseManager]: the same record is denied exactly when the date of
    the time service is a later day than the day of expiry. *)
Lemma manager_expiry (w : world) (user : string) (tr : list event)
      (record : list (string * json)) (expires today : string)
      (t now : datetime) :
  is_true (field "active" record) = false ->
  lookup "expires" record = Some (JStr expires) ->
  strptime expires = Some t ->
  date_online w = Some today ->
  strptime today = Some now ->
  LicenseManager.evaluate_license w user (JObj record) tr =
  if lex_gtb (date_of now) (date_of t)
  then (Ok JNull,
        EvPrint (LicenseExpired (JStr expires)) :: EvDateOnline :: tr)
  else (Ok (level_of record),
        EvPrint (AccessUntil user (level_of record)) :: EvDateOnline :: tr).
Proof.
  intros Ha He Ht Hd Hn.
  assert (Hg : dt_gtb now t = lex_gtb (date_of now) (date_of t)).
  { rewrite (strptime_midnight _ _ Ht), (strptime_midnight _ _ Hn).
    apply dt_gtb_midnight. }
  revert Hg. generalize (lex_gtb (date_of now) (date_of t)). intros late Hg.
  unfold LicenseManager.evaluate_license,
    LicenseManager._get_current_date_online, LicenseManager.print,
    LicenseManager.emit. mstep.
  unfold field in Ha.
  assert (Hnz := strptime_nonempty _ _ Ht). simpl in Hnz.
  destruct (lookup "active" record) as [a|]; simpl; try rewrite Ha; simpl;
    rewrite He; simpl; rewrite Hnz; simpl; rewrite Hd, Ht; simpl;
    rewrite Hn, Hg; unfold level_of;
    destruct late; try reflexivity;
    now destruct (lookup "level" record).
Qed.

(** C4.  The record of Pavel is not active and expires on 2025-12-31; the
    clock reads noon of that day and the time service gives that day.
    The current date equals [expires], so the claim has the check grant
    with the level ["PRO"].  [LicenseManager.check_license] does;
    [AppHub.check_license] denies with [LicenseExpired], because it
    compares the clock reading, time of day included, with midnight. *)
Theorem expiry_day_divergence :
  lookup "Pavel" [("Pavel", JObj [("level", JStr "PRO");
                                  ("active", JBool false);
                                  ("expires", JStr "2025-12-31")])]
  = match lookup "joystick" Sample.apps with
    | Some (JObj app_users) => lookup "Pavel" app_users
    | _ => None
    end /\
  strptime "2025-12-31" = Some (midnight 2025 12 31) /\
  clock Sample.w = mkDatetime 2025 12 31 12 0 0 0 /\
  date_online Sample.w = Some "2025-12-31" /\
  fst (AppHub.check_license Sample.w Sample.pavel) = Ok JNull /\
  AppHub.trace (snd (AppHub.check_license Sample.w Sample.pavel)) =
  [EvPrint (LicenseExpired (JStr "2025-12-31")); EvNow;
   EvFetch "licenses.json"] /\
  LicenseManager.check_license
    Sample.w (LicenseManager.mkManager "joystick" 10 "hw-pavel") [] =
  (Ok (JStr "PRO"),
   [EvPrint (AccessUntil "Pavel" (JStr "PRO")); EvDateOnline;
    EvFetch "licenses.json"]).
Proof. repeat split. Qed.

(** ** The server name *)

Ltac break_match :=
  match goal with
  | |- context [match ?x with _ => _ end] => destruct x eqn:?; simpl
  end.

Lemma get_server_resolved (h : AppHub.hub) user doc users info :
  AppHub._user_name h = Some user ->
  AppHub._licenses h = JObj doc ->
  lookup "users" doc = Some (JObj users) ->
  lookup user users = Some info ->
  AppHub.get_server h = (Ok (server_of info), h).
Proof.
  intros Hn Hl Hu Hi. unfold AppHub.get_server. mstep.
  rewrite Hn, Hl. simpl. rewrite Hu. simpl. rewrite Hi.
  unfold server_of, field.
  destruct info; try reflexivity. simpl.
  destruct (lookup "server" kvs) as [v|]; simpl; [|reflexivity].
  now destruct (truthy v).
Qed.

Section KeepsIdentity.
Import AppHub.









End KeepsIdentity.




(** ** The cache *)

Section Cache.
Import AppHub.
Variable w : world.

Lemma fetch_json_eq (f : string) (h : hub) :
  _fetch_json w f h = (Ok (fetched w f h), after_fetch w f h).
Proof.
  unfold _fetch_json, fetched, after_fetch, print, emit. mstep.
  now destruct (store w (fetch_count (trace h)) f).
Qed.

(** The server slot is filled by a request unless it holds a document
    under the requested name. *)
Lemma load_server_config_miss (name : json) (h : hub) :
  negb (is_none (_server_config h)) && name_eq w (_server_name h) name
  = false ->
  _load_server_config w name h =
  (Ok (negb (is_none (fetched w (json_file w name) h))),
   set_server_name name
     (set_server_config (fetched w (json_file w name) h)
        (after_fetch w (json_file w name) h))).
Proof.
  intros Hc. unfold _load_server_config.
  unfold bind at 1. unfold gets at 1.
  unfold bind at 1. unfold gets at 1. rewrite Hc.
  unfold bind at 1. rewrite fetch_json_eq. reflexivity.
Qed.

Lemma load_server_config_hit (name : json) (h : hub) :
  negb (is_none (_server_config h)) && name_eq w (_server_name h) name
  = true ->
  _load_server_config w name h = (Ok true, h).
Proof.
  intros Hc. unfold _load_server_config. mstep. now rewrite Hc.
Qed.

Lemma load_global_config_miss (h : hub) :
  is_none (_global_config h) = true ->
  _load_global_config w h =
  (Ok (negb (is_none (fetched w "global.json" h))),
   set_global_config (fetched w "global.json" h)
     (after_fetch w "global.json" h)).
Proof.
  intros Hc. unfold _load_global_config.
  unfold bind at 1. unfold gets at 1. rewrite Hc. simpl.
  unfold bind at 1. rewrite fetch_json_eq. reflexivity.
Qed.

Lemma load_global_config_hit (h : hub) :
  is_none (_global_config h) = false ->
  _load_global_config w h = (Ok true, h).
Proof.
  intros Hc. unfold _load_global_config. mstep. now rewrite Hc.
Qed.
End Cache.

(** ** The search of one tier *)

Lemma search_sections_first (param : string) (doc : list (string * json)) :
  AppHub.search_sections param (map snd doc) = first_section param doc.
Proof.
  induction doc as [|[k v] rest IH]; simpl; [reflexivity|].
  destruct v; try exact IH.
  destruct (lookup param kvs); [reflexivity | exact IH].
Qed.

Lemma search_config_tier (param : string) (doc : list (string * json)) :
  AppHub.search_config (JObj doc) param = Ok (tier_lookup param doc).
Proof.
  unfold AppHub.search_config, tier_lookup. simpl. unfold has_key.
  destruct (lookup param doc); [reflexivity|].
  now rewrite search_sections_first.
Qed.

Lemma search_user_hit (param : string) (h : AppHub.hub) record v :
  AppHub._user_data h = JObj record ->
  lookup param record = Some v ->
  AppHub.search_user param h = (Ok (Some v), h).
Proof.
  intros Hd Hl. unfold AppHub.search_user. mstep.
  rewrite Hd. simpl. rewrite (has_key_lookup _ _ _ Hl). simpl.
  now rewrite Hl.
Qed.

Lemma search_user_miss (param : string) (h : AppHub.hub) :
  user_misses param h -> AppHub.search_user param h = (Ok None, h).
Proof.
  intros [Hd | (record & Hd & Hl)]; unfold AppHub.search_user; mstep;
    rewrite Hd; simpl; [reflexivity|].
  now rewrite (has_key_none _ _ Hl).
Qed.

(** ** The cascade *)

Section Cascade.
Import AppHub.
Variable w : world.

(** [get] once the user tier has fallen through. *)
Lemma get_after_user (param : string) (fallback : bool) (h : hub) :
  user_misses param h ->
  get w param fallback h =
  match search_server w param h with
  | (Ok (Some v), h1) => (Ok v, h1)
  | (Ok None, h1) =>
      match search_global w param fallback h1 with
      | (Ok (Some v), h2) => (Ok v, h2)
      | (Ok None, h2) =>
          (Ok JNull, record_event (EvPrint (ParameterNotFound param)) h2)
      | (Raise e, h2) => (Raise e, h2)
      end
  | (Raise e, h1) => (Raise e, h1)
  end.
Proof.
  intros Hu. unfold get. unfold bind at 1.
  rewrite (search_user_miss param h Hu).
  unfold bind at 1.
  destruct (search_server w param h) as [[[v|]|e] h1]; try reflexivity.
  unfold bind at 1.
  destruct (search_global w param fallback h1) as [[[v|]|e] h2];
    reflexivity.
Qed.

Lemma search_server_loaded (param : string) (h hs h1 : hub) server sdoc :
  get_server h = (Ok server, hs) ->
  truthy server = true ->
  _load_server_config w server hs = (Ok true, h1) ->
  _server_config h1 = JObj sdoc ->
  search_server w param h = (Ok (tier_lookup param sdoc), h1).
Proof.
  intros Hs Ht Hl Hc. unfold search_server.
  unfold bind at 1. rewrite Hs, Ht. simpl.
  unfold bind at 1. rewrite Hl. simpl.
  unfold bind, gets, lift. rewrite Hc. now rewrite search_config_tier.
Qed.

Lemma search_global_loaded (param : string) (h h2 : hub) gdoc :
  _load_global_config w h = (Ok true, h2) ->
  _global_config h2 = JObj gdoc ->
  search_global w param true h = (Ok (tier_lookup param gdoc), h2).
Proof.
  intros Hl Hc. unfold search_global. simpl.
  unfold bind at 1. rewrite Hl. simpl.
  unfold bind, gets, lift. rewrite Hc. now rewrite search_config_tier.
Qed.
End Cascade.

(** C1.  [get] consults the user tier, then the server tier, then the
    global tier, and returns the first match.
    - A value under the parameter name in the license record is returned
      without a look at the server or global documents.
    - Else a value of the server document is returned without a look at
      the global document.
    - Else, with the fallback allowed, the value of the global document is
      returned, or the not-found signal.
    - The search of a document is [tier_lookup]: a top-level key wins over
      a key inside a section, wherever the section stands; else the first
      section in document order that is a mapping and has the key. *)
Theorem cascade_order :
  forall (w : world) (param : string) (fallback : bool) (h : AppHub.hub),
    (forall record v,
        AppHub._user_data h = JObj record ->
        lookup param record = Some v ->
        AppHub.get w param fallback h = (Ok v, h)) /\
    (forall hs h1 server sdoc v,
        user_misses param h ->
        AppHub.get_server h = (Ok server, hs) ->
        truthy server = true ->
        AppHub._load_server_config w server hs = (Ok true, h1) ->
        AppHub._server_config h1 = JObj sdoc ->
        tier_lookup param sdoc = Some v ->
        AppHub.get w param fallback h = (Ok v, h1)) /\
    (forall h1 h2 gdoc,
        user_misses param h ->
        AppHub.search_server w param h = (Ok None, h1) ->
        fallback = true ->
        AppHub._load_global_config w h1 = (Ok true, h2) ->
        AppHub._global_config h2 = JObj gdoc ->
        AppHub.get w param fallback h =
        match tier_lookup param gdoc with
        | Some v => (Ok v, h2)
        | None =>
            (Ok JNull,
             AppHub.record_event (EvPrint (ParameterNotFound param)) h2)
        end) /\
    (forall doc,
        AppHub.search_config (JObj doc) param = Ok (tier_lookup param doc)) /\
    (forall doc v,
        lookup param doc = Some v -> tier_lookup param doc = Some v) /\
    (forall doc,
        lookup param doc = None ->
        tier_lookup param doc = first_section param doc).
Proof.
  intros w param fallback h.
  split; [|split; [|split; [|split; [|split]]]].
  - intros record v Hd Hl. unfold AppHub.get. unfold bind at 1.
    now rewrite (search_user_hit param h record v Hd Hl).
  - intros hs h1 server sdoc v Hu Hs Ht Hl Hc Hv.
    rewrite (get_after_user w param fallback h Hu).
    rewrite (search_server_loaded w param h hs h1 server sdoc Hs Ht Hl Hc).
    now rewrite Hv.
  - intros h1 h2 gdoc Hu Hs Hf Hl Hc. subst fallback.
    rewrite (get_after_user w param true h Hu), Hs.
    rewrite (search_global_loaded w param h1 h2 gdoc Hl Hc).
    now destruct (tier_lookup param gdoc).
  - intros doc. apply search_config_tier.
  - intros doc v Hl. unfold tier_lookup. now rewrite Hl.
  - intros doc Hl. unfold tier_lookup. now rewrite Hl.
Qed.

Lemma cascade_order_witness :
  let h := Sample.checked Sample.evgen in
  let h1 := snd (AppHub._load_server_config Sample.w (JStr "alure") h) in
  AppHub.get Sample.w "delay" true h = (Ok (JInt 7), h) /\
  AppHub.get Sample.w "x" true h = (Ok (JInt 3), h1) /\
  AppHub.get Sample.w "z" true h =
  (Ok (JInt 8), snd (AppHub._load_global_config Sample.w h1)) /\
  tier_lookup "delay" Sample.global_json = Some (JInt 2).
Proof.
  intros h h1.
  split; [|split; [|split]].
  - destruct (cascade_order Sample.w "delay" true h) as (A & _).
    apply (A [("active", JBool true); ("level", JStr "DEV");
              ("delay", JInt 7)]); reflexivity.
  - destruct (cascade_order Sample.w "x" true h) as (_ & A & _).
    apply (A h h1 (JStr "alure") Sample.alure_json);
      try reflexivity. solve_misses.
  - destruct (cascade_order Sample.w "z" true h) as (_ & _ & A & _).
    apply (A h1 (snd (AppHub._load_global_config Sample.w h1))
             Sample.global_json);
      try reflexivity. solve_misses.
  - destruct (cascade_order Sample.w "delay" true h)
      as (_ & _ & _ & _ & A & _).
    apply (A Sample.global_json). reflexivity.
Defined.

(** ** The default server name *)

(** C10.  When the entry of the user gives no server, the server name is
    ["global"] and the server tier is not skipped: with an empty server
    slot, [get] requests [global.json], keeps the answer in the server
    slot under the name ["global"] and searches it as the server tier,
    also when the fallback is off.  When that search falls through and
    the fallback is on, the global tier requests [global.json] a second
    time. *)
Theorem default_server_reads_global :
  forall (w : world) (param : string) (h : AppHub.hub)
         (user : string) (doc users gdoc : list (string * json))
         (info : json),
    user_misses param h ->
    AppHub._user_name h = Some user ->
    AppHub._licenses h = JObj doc ->
    lookup "users" doc = Some (JObj users) ->
    lookup user users = Some info ->
    server_of info = JStr "global" ->
    is_none (AppHub._server_config h) = true ->
    store w (fetch_count (AppHub.trace h)) "global.json" = Some (JObj gdoc) ->
    let h1 := AppHub.set_server_name (JStr "global")
                (AppHub.set_server_config (JObj gdoc)
                   (AppHub.record_event (EvFetch "global.json") h)) in
    (forall fallback v,
        tier_lookup param gdoc = Some v ->
        AppHub.get w param fallback h = (Ok v, h1)) /\
    (tier_lookup param gdoc = None ->
     AppHub.get w param false h =
     (Ok JNull, AppHub.record_event (EvPrint (ParameterNotFound param)) h1)) /\
    (tier_lookup param gdoc = None ->
     is_none (AppHub._global_config h) = true ->
     fetches_of "global.json" (AppHub.trace (snd (AppHub.get w param true h)))
     = (2 + fetches_of "global.json" (AppHub.trace h))%nat).
Proof.
  intros w param h user doc users gdoc info Hu Hn Hl Hus Hi Hsrv Hslot Hst h1.
  assert (Hserver : AppHub.search_server w param h
                    = (Ok (tier_lookup param gdoc), h1)).
  { apply search_server_loaded with (hs := h) (server := JStr "global").
    - rewrite <- Hsrv. now apply get_server_resolved with user doc users.
    - reflexivity.
    - rewrite load_server_config_miss by now rewrite Hslot.
      unfold fetched, after_fetch. simpl. now rewrite Hst.
    - reflexivity. }
  split; [|split].
  - intros fallback v Hv.
    now rewrite (get_after_user w param fallback h Hu), Hserver, Hv.
  - intros Hv.
    now rewrite (get_after_user w param false h Hu), Hserver, Hv.
  - intros Hv Hg.
    rewrite (get_after_user w param true h Hu), Hserver, Hv.
    unfold AppHub.search_global. simpl.
    unfold bind at 1.
    rewrite load_global_config_miss by exact Hg.
    unfold fetched, after_fetch, fetches_of.
    destruct (store w (fetch_count (AppHub.trace h1)) "global.json") as [d|];
      simpl; [|reflexivity].
    destruct (is_none d); simpl; [reflexivity|].
    unfold bind, gets, lift. simpl.
    now destruct (AppHub.search_config d param) as [[v|]|e].
Qed.

Lemma default_server_reads_global_witness :
  let h := Sample.checked Sample.olga in
  let h1 := AppHub.set_server_name (JStr "global")
              (AppHub.set_server_config (JObj Sample.global_json)
                 (AppHub.record_event (EvFetch "global.json") h)) in
  AppHub.get Sample.w "delay" false h = (Ok (JInt 2), h1) /\
  AppHub.get Sample.w "zz" false h =
  (Ok JNull, AppHub.record_event (EvPrint (ParameterNotFound "zz")) h1) /\
  fetches_of "global.json"
    (AppHub.trace (snd (AppHub.get Sample.w "zz" true h))) = 2%nat.
Proof.
  intros h h1.
  split; [|split].
  - apply (proj1 (default_server_reads_global
                    Sample.w "delay" h "Olga" Sample.licenses Sample.users
                    Sample.global_json (JStr "hw-olga")
                    ltac:(solve_misses) eq_refl eq_refl eq_refl eq_refl
                    eq_refl eq_refl eq_refl) false (JInt 2)).
    reflexivity.
  - apply (proj1 (proj2 (default_server_reads_global
                    Sample.w "zz" h "Olga" Sample.licenses Sample.users
                    Sample.global_json (JStr "hw-olga")
                    ltac:(solve_misses) eq_refl eq_refl eq_refl eq_refl
                    eq_refl eq_refl eq_refl))).
    reflexivity.
  - apply (proj2 (proj2 (default_server_reads_global
                    Sample.w "zz" h "Olga" Sample.licenses Sample.users
                    Sample.global_json (JStr "hw-olga")
                    ltac:(solve_misses) eq_refl eq_refl eq_refl eq_refl
                    eq_refl eq_refl eq_refl))); reflexivity.
Defined.

(** ** [get] without the fallback *)

Section IgnoresGlobal.
Import AppHub.

Lemma ig_ret {A} (a : A) : ignores_global (ret a).
Proof. now intros g h. Qed.

Lemma ig_lift {A} (r : result A) : ignores_global (lift r).
Proof. now intros g h. Qed.

Lemma ig_bind {A B} (c : M A) (k : A -> M B) :
  ignores_global c -> (forall a, ignores_global (k a)) ->
  ignores_global (bind c k).
Proof.
  intros Hc Hk g h. unfold bind. rewrite Hc.
  destruct (c h) as [[a|e] h']; simpl; [apply Hk | reflexivity].
Qed.

Lemma ig_gets {A} (f : hub -> A) :
  (forall g h, f (set_global_config g h) = f h) -> ignores_global (gets f).
Proof. intros Hf g h. unfold gets. simpl. now rewrite Hf. Qed.

Lemma ig_modify (f : hub -> hub) :
  (forall g h, f (set_global_config g h) = set_global_config g (f h)) ->
  ignores_global (modify f).
Proof. intros Hf g h. unfold modify. simpl. now rewrite Hf. Qed.

Ltac ig_step :=
  first
    [ apply ig_ret
    | apply ig_lift
    | apply ig_gets; reflexivity
    | apply ig_modify; reflexivity
    | apply ig_bind; [|intros]
    | match goal with
      | |- ignores_global (if ?b then _ else _) => destruct b
      | |- ignores_global (match ?x with _ => _ end) => destruct x
      end ].

Lemma ig_print (m : message) : ignores_global (print m).
Proof. unfold print, emit. repeat ig_step. Qed.

Lemma ig_fetch_json (w : world) (f : string) :
  ignores_global (_fetch_json w f).
Proof. unfold _fetch_json, print, emit. repeat ig_step. Qed.

Lemma ig_get_server : ignores_global get_server.
Proof. unfold get_server, print, emit. repeat ig_step. Qed.

Lemma ig_load_server_config (w : world) (name : json) :
  ignores_global (_load_server_config w name).
Proof.
  unfold _load_server_config.
  repeat first [apply ig_fetch_json | ig_step].
Qed.

Lemma ig_search_server (w : world) (param : string) :
  ignores_global (search_server w param).
Proof.
  unfold search_server.
  repeat first [apply ig_get_server | apply ig_load_server_config | ig_step].
Qed.

Lemma ig_search_user (param : string) : ignores_global (search_user param).
Proof. unfold search_user. repeat ig_step. Qed.

Lemma ig_get (w : world) (param : string) :
  ignores_global (get w param false).
Proof.
  unfold get, search_global. simpl.
  repeat first [apply ig_search_user | apply ig_search_server
               | apply ig_print | ig_step].
Qed.
End IgnoresGlobal.

Section TwoWorlds.
Import AppHub.
Variables w1 w2 : world.
Hypothesis Hagree : agree_except_global w1 w2.

Lemma json_file_agree (name : json) : json_file w1 name = json_file w2 name.
Proof.
  destruct Hagree as (_ & Hf & _).
  destruct name; simpl; try reflexivity; now rewrite Hf.
Qed.

Lemma name_eq_agree (a b : json) : name_eq w1 a b = name_eq w2 a b.
Proof.
  destruct Hagree as (_ & _ & He).
  destruct a, b; simpl; try reflexivity; apply He.
Qed.

Lemma load_server_config_agree (name : json) (h : hub) :
  json_file w1 name <> "global.json" ->
  _load_server_config w1 name h = _load_server_config w2 name h.
Proof.
  intros Hne.
  destruct (negb (is_none (_server_config h))
            && name_eq w1 (_server_name h) name) eqn:Hc.
  - rewrite !load_server_config_hit; auto. now rewrite <- name_eq_agree.
  - rewrite !load_server_config_miss;
      [|now rewrite <- name_eq_agree | assumption].
    rewrite <- json_file_agree.
    unfold fetched, after_fetch.
    destruct Hagree as (Hs & _). now rewrite (Hs _ _ Hne).
Qed.

Lemma get_server_state (h hs : hub) (server : json) :
  get_server h = (Ok server, hs) -> truthy server = true -> hs = h.
Proof.
  unfold get_server, print, emit. mstep.
  repeat break_match; intros H; inv H; try reflexivity; discriminate.
Qed.

Lemma search_server_agree (param : string) (h : hub) :
  (forall server hs,
      get_server h = (Ok server, hs) -> truthy server = true ->
      json_file w1 server <> "global.json") ->
  search_server w1 param h = search_server w2 param h.
Proof.
  intros Hne. unfold search_server, bind.
  destruct (get_server h) as [[server|e] hs] eqn:Hs; [|reflexivity].
  destruct (truthy server) eqn:Ht; simpl; [|reflexivity].
  now rewrite (load_server_config_agree server hs (Hne server hs eq_refl Ht)).
Qed.

Lemma search_user_state (param : string) (h : hub) :
  snd (search_user param h) = h.
Proof. unfold search_user. mstep. repeat break_match; reflexivity. Qed.

Lemma get_agree (param : string) (h : hub) :
  (forall server hs,
      get_server h = (Ok server, hs) -> truthy server = true ->
      json_file w1 server <> "global.json") ->
  get w1 param false h = get w2 param false h.
Proof.
  intros Hne. unfold get, bind.
  assert (Hst := search_user_state param h).
  destruct (search_user param h) as [[[v|]|e] h0]; try reflexivity.
  simpl in Hst. subst h0.
  now rewrite (search_server_agree param h Hne).
Qed.
End TwoWorlds.

(** C6, as the claim states it, fails when the server name is the default
    ["global"]: the server tier then reads [global.json].  Olga is
    registered without a server; two worlds that differ in the content of
    [global.json] alone give two different values for [get("delay",
    fallback=False)], and the trace shows the request. *)
Lemma no_fallback_counterexample :
  let h := Sample.checked Sample.olga in
  let w2 := Sample.world_with [("delay", JInt 5)] Sample.noon in
  agree_except_global Sample.w w2 /\
  fst (AppHub.check_license Sample.w Sample.olga) = Ok (JStr "TRY") /\
  fst (AppHub.get Sample.w "delay" false h) = Ok (JInt 2) /\
  fst (AppHub.get w2 "delay" false h) = Ok (JInt 5) /\
  AppHub.trace (snd (AppHub.get Sample.w "delay" false h)) =
  EvFetch "global.json" :: AppHub.trace h.
Proof.
  intros h w2. split; [|repeat split].
  split; [|split; reflexivity].
  intros k f Hf. simpl. unfold Sample.files.
  destruct (String.eqb f "licenses.json"); [reflexivity|].
  destruct (String.eqb_spec f "global.json"); [contradiction | reflexivity].
Qed.

(** C6, amended.  With the fallback off, [get] never runs the global tier:
    - when the user tier and the server tier both miss, it returns the
      not-found signal;
    - it neither reads nor writes the global slot of the cache;
    - when the file of the server tier is not [global.json], its result
      and final state are the same in any two worlds that differ in the
      content of [global.json] alone.
    (When the server name is the default ["global"], the server tier
    itself reads [global.json].) *)
Theorem no_fallback_skips_global_tier :
  forall (w : world) (param : string) (h : AppHub.hub),
    (forall h1,
        user_misses param h ->
        AppHub.search_server w param h = (Ok None, h1) ->
        AppHub.get w param false h =
        (Ok JNull,
         AppHub.record_event (EvPrint (ParameterNotFound param)) h1)) /\
    (forall g,
        AppHub.get w param false (AppHub.set_global_config g h) =
        (fst (AppHub.get w param false h),
         AppHub.set_global_config g (snd (AppHub.get w param false h)))) /\
    (forall w2,
        agree_except_global w w2 ->
        (forall server hs,
            AppHub.get_server h = (Ok server, hs) ->
            truthy server = true ->
            json_file w server <> "global.json") ->
        AppHub.get w param false h = AppHub.get w2 param false h).
Proof.
  intros w param h. split; [|split].
  - intros h1 Hu Hs.
    now rewrite (get_after_user w param false h Hu), Hs.
  - intros g. apply ig_get.
  - intros w2 Ha Hne. now apply get_agree.
Qed.

Lemma no_fallback_skips_global_tier_witness :
  let h := Sample.checked Sample.evgen in
  let w2 := Sample.world_with [("y", JInt 5)] Sample.noon in
  AppHub.get Sample.w "zz" false h =
  (Ok JNull,
   AppHub.record_event (EvPrint (ParameterNotFound "zz"))
     (snd (AppHub.search_server Sample.w "zz" h))) /\
  AppHub.get Sample.w "y" false h = AppHub.get w2 "y" false h.
Proof.
  intros h w2. split.
  - apply (proj1 (no_fallback_skips_global_tier Sample.w "zz" h)
             (snd (AppHub.search_server Sample.w "zz" h)));
      [solve_misses | reflexivity].
  - apply (proj2 (proj2 (no_fallback_skips_global_tier Sample.w "y" h)) w2).
    + split; [|split; reflexivity].
      intros k f Hf. simpl. unfold Sample.files.
      destruct (String.eqb f "licenses.json"); [reflexivity|].
      destruct (String.eqb_spec f "global.json");
        [contradiction | reflexivity].
    + intros server hs H _. vm_compute in H. inversion H. discriminate.
Defined.

(** ** One request per slot *)

Section Slots.
Import AppHub.
Variable w : world.



(** With an empty licenses slot the load sends a request, and a load
    that reports a failure leaves the slot empty. *)
Lemma load_licenses_miss (h h1 : hub) (r : result bool) :
  is_none (_licenses h) = true ->
  _load_licenses w h = (r, h1) ->
  filter is_fetch (trace h1) =
  EvFetch "licenses.json" :: filter is_fetch (trace h) /\
  (r = Ok false -> is_none (_licenses h1) = true).
Proof.
  intros Hc. unfold _load_licenses, _fetch_json, print, emit. mstep.
  rewrite Hc. simpl.
  destruct (store w (fetch_count (trace h)) "licenses.json") as [d|];
    simpl; [|intros H; inv H; auto].
  destruct d as [|b|n|f|s|l|kvs]; simpl;
    try (intros H; inv H; split; [reflexivity | auto; discriminate]).
  - destruct (is_substring "users" s); simpl;
      [destruct (is_substring "apps" s)|]; simpl;
      intros H; inv H; split; auto; discriminate.
  - destruct (existsb _ l); simpl;
      [destruct (existsb _ l)|]; simpl;
      intros H; inv H; split; auto; discriminate.
  - destruct (has_key "users" kvs); simpl;
      [destruct (has_key "apps" kvs)|]; simpl;
      intros H; inv H; split; auto; discriminate.
Qed.



End Slots.

Section TwoCalls.
Import AppHub.
Variable w : world.


End TwoCalls.




(** * Further properties of the code *)

(** ** The hardware identifier *)

Lemma low_byte_of_shift (n n' e : Z) :
  0 <= e <= 10 ->
  n mod 2 ^ 18 = n' mod 2 ^ 18 ->
  Z.land (Z.shiftr n e) 255 = Z.land (Z.shiftr n' e) 255.
Proof.
  intros He Hm. apply Z.bits_inj'. intros i Hi.
  rewrite !Z.land_spec, !Z.shiftr_spec by assumption.
  change 255 with (Z.ones 8).
  destruct (Z.ltb_spec i 8) as [Hlt | Hge].
  - rewrite <- (Z.mod_pow2_bits_low n 18 (i + e)) by lia.
    rewrite <- (Z.mod_pow2_bits_low n' 18 (i + e)) by lia.
    now rewrite Hm.
  - rewrite Z.ones_spec_high by lia. now rewrite !andb_false_r.
Qed.

(** X1.  The MAC component of the identifier is built from the low 18
    bits of the node number alone: the six bytes are taken two bits
    apart, not eight, so two node numbers that agree modulo 2^18 give
    the same string. *)
Theorem mac_address_low_bits :
  forall n n' : Z,
    n mod 2 ^ 18 = n' mod 2 ^ 18 -> mac_address n = mac_address n'.
Proof.
  intros n n' Hm. unfold mac_address. simpl map.
  now rewrite !(low_byte_of_shift n n') by (lia || assumption).
Qed.

Lemma mac_address_low_bits_witness :
  mac_address 20015998343868 = mac_address (20015998343868 + 2 ^ 40) /\
  mac_address 20015998343868 = "26:9a:6a:ab:af:bc".
Proof.
  split.
  - apply (mac_address_low_bits 20015998343868 (20015998343868 + 2 ^ 40)).
    reflexivity.
  - reflexivity.
Defined.

Lemma identifiers_mac_only (m : machine) (n : Z) :
  system m <> "Windows" ->
  cpu_id m = None ->
  getnode m = Some n ->
  identifiers m = [mac_address n].
Proof.
  intros Hs Hc Hn. unfold identifiers, wmic_value.
  rewrite Hc, Hn.
  destruct (String.eqb_spec (system m) "Windows"); [contradiction|].
  reflexivity.
Qed.

(** X2.  Off Windows, on a machine whose [/proc/cpuinfo] gives no serial
    (or that is not Linux), the identifier is the hash of the MAC
    component alone; two such machines whose node numbers agree modulo
    2^18 get the same identifier, whatever their host names. *)
Theorem hwid_from_low_bits :
  forall (m m' : machine) (n n' : Z),
    system m <> "Windows" -> system m' <> "Windows" ->
    cpu_id m = None -> cpu_id m' = None ->
    getnode m = Some n -> getnode m' = Some n' ->
    n mod 2 ^ 18 = n' mod 2 ^ 18 ->
    (forall s, sha256 m s = sha256 m' s) ->
    _generate_hwid m = sha256 m (mac_address n) /\
    _generate_hwid m = _generate_hwid m'.
Proof.
  intros m m' n n' Hs Hs' Hc Hc' Hn Hn' Hm Hh.
  unfold _generate_hwid.
  rewrite (identifiers_mac_only m n Hs Hc Hn).
  rewrite (identifiers_mac_only m' n' Hs' Hc' Hn').
  simpl. split; [reflexivity|].
  now rewrite (mac_address_low_bits n n' Hm), Hh.
Qed.

Lemma hwid_from_low_bits_witness :
  let m := mkMachine "Linux" (fun _ => None) (Some ["model name : x"])
                     (Some 5) "alpha" (fun s => s) in
  let m' := mkMachine "Darwin" (fun _ => None) None
                      (Some (5 + 2 ^ 18)) "beta" (fun s => s) in
  _generate_hwid m = "00:00:00:00:01:05" /\
  _generate_hwid m = _generate_hwid m'.
Proof.
  intros m m'.
  apply (hwid_from_low_bits m m' 5 (5 + 2 ^ 18));
    try reflexivity; discriminate.
Defined.



(** ** The table of [debug_all_users] *)

Lemma debug_row_shape (users_info : json) (user : string)
      (record : list (string * json)) (server : json) :
  AppHub.shown_server users_info user = Ok server ->
  AppHub.debug_row users_info user (JObj record) =
  if AppHub.formattable (level_of record) && AppHub.formattable server
  then ([AppHub.Row user (level_of record) server
           (if truthy (match lookup "active" record with
                       | Some a => a
                       | None => JBool false
                       end)
            then AppHub.Active
            else AppHub.Until (match lookup "expires" record with
                               | Some e => e
                               | None => JStr "N/A"
                               end))],
        Ok tt)
  else ([], Raise TypeError).
Proof.
  intros Hs. unfold AppHub.debug_row, AppHub.out_bind, AppHub.try_,
    AppHub.say, level_of. simpl. rewrite Hs.
  destruct (lookup "level" record), (lookup "active" record),
    (lookup "expires" record); simpl;
    match goal with
    | |- context [if ?b then _ else _] => destruct b
    end; reflexivity.
Qed.

(** X4.  For a user registered in the legacy form the table and
    [get_server] disagree: the table shows the server ["N/A"], while
    [get_server] answers ["global"] for the same user. *)
Theorem legacy_server_shown_differs :
  forall (h : AppHub.hub) (user identity : string)
         (doc users record : list (string * json)),
    AppHub._user_name h = Some user ->
    AppHub._licenses h = JObj doc ->
    lookup "users" doc = Some (JObj users) ->
    lookup user users = Some (JStr identity) ->
    AppHub.formattable (level_of record) = true ->
    AppHub.get_server h = (Ok (JStr "global"), h) /\
    exists st,
      AppHub.debug_row (JObj users) user (JObj record) =
      ([AppHub.Row user (level_of record) (JStr "N/A") st], Ok tt).
Proof.
  intros h user identity doc users record Hn Hl Hu Hi Hf. split.
  - apply (get_server_resolved h user doc users (JStr identity)); assumption.
  - eexists.
    rewrite (debug_row_shape (JObj users) user record (JStr "N/A")).
    + rewrite Hf. reflexivity.
    + unfold AppHub.shown_server. simpl.
      now rewrite (has_key_lookup _ _ _ Hi), Hi.
Qed.

Lemma legacy_server_shown_differs_witness :
  AppHub.get_server (Sample.checked Sample.olga)
  = (Ok (JStr "global"), Sample.checked Sample.olga) /\
  exists st,
    AppHub.debug_row (JObj Sample.users) "Olga"
      (JObj [("active", JBool true); ("expires", JStr "2020-01-01")]) =
    ([AppHub.Row "Olga" (JStr "TRY") (JStr "N/A") st], Ok tt).
Proof.
  apply (legacy_server_shown_differs
           (Sample.checked Sample.olga) "Olga" "hw-olga"
           Sample.licenses Sample.users
           [("active", JBool true); ("expires", JStr "2020-01-01")]);
    reflexivity.
Defined.

(** X5.  The table and the check read [active] differently.  A record
    whose [active] is true-like without being [true] (say [1]) and that
    has no [expires] is shown as active in the table, and
    [check_license] denies it with [LicenseInactive]. *)
Theorem active_shown_differs :
  forall (w : world) (h : AppHub.hub) (users_info server active : json)
         (user : string) (record : list (string * json)),
    lookup "active" record = Some active ->
    truthy active = true ->
    is_true active = false ->
    truthy (field "expires" record) = false ->
    AppHub.shown_server users_info user = Ok server ->
    AppHub.formattable (level_of record) = true ->
    AppHub.formattable server = true ->
    AppHub.debug_row users_info user (JObj record) =
    ([AppHub.Row user (level_of record) server AppHub.Active], Ok tt) /\
    AppHub.evaluate_license w (JObj record) h =
    (Ok JNull, AppHub.record_event (EvPrint LicenseInactive) h).
Proof.
  intros w h users_info server active user record Ha Ht Hi He Hs Hl Hf.
  split.
  - rewrite (debug_row_shape users_info user record server Hs).
    now rewrite Hl, Hf, Ha, Ht.
  - unfold AppHub.evaluate_license, AppHub.print, AppHub.emit. mstep.
    rewrite Ha. simpl. rewrite Hi. simpl.
    unfold field in He.
    destruct (lookup "expires" record); simpl; now rewrite ?He.
Qed.

Lemma active_shown_differs_witness :
  AppHub.debug_row (JObj Sample.users) "Evgen"
    (JObj [("active", JInt 1); ("level", JStr "DEV")]) =
  ([AppHub.Row "Evgen" (JStr "DEV") (JStr "alure") AppHub.Active], Ok tt) /\
  AppHub.evaluate_license Sample.w
    (JObj [("active", JInt 1); ("level", JStr "DEV")]) Sample.evgen =
  (Ok JNull, AppHub.record_event (EvPrint LicenseInactive) Sample.evgen).
Proof.
  apply (active_shown_differs Sample.w Sample.evgen (JObj Sample.users)
           (JStr "alure") (JInt 1) "Evgen"
           [("active", JInt 1); ("level", JStr "DEV")]);
    reflexivity.
Defined.

Lemma debug_row_lines (users_info : json) (user : string) (record : json)
      (ls : list AppHub.line) (r : result unit) :
  AppHub.debug_row users_info user record = (ls, r) ->
  (r = Ok tt /\ map row_user ls = [Some user]) \/
  (exists e, r = Raise e /\ ls = []).
Proof.
  unfold AppHub.debug_row, AppHub.out_bind, AppHub.try_, AppHub.say.
  destruct (py_get record "level" (JStr "TRY")) as [level|e1]; simpl;
    [|intros H; inv H; eauto].
  destruct (py_get record "active" (JBool false)) as [active|e2]; simpl;
    [|intros H; inv H; eauto].
  destruct (py_get record "expires" (JStr "N/A")) as [expires|e3]; simpl;
    [|intros H; inv H; eauto].
  destruct (AppHub.shown_server users_info user) as [server|e4]; simpl;
    [|intros H; inv H; eauto].
  destruct (AppHub.formattable level && AppHub.formattable server); simpl;
    intros H; inv H; eauto.
Qed.

(** X6.  When the loop of [debug_all_users] runs to its end, it has
    printed one row for each user of the application, in document
    order; when a row raises, the rows printed are those of the users
    before it. *)
Theorem debug_rows_in_order :
  forall (users_info : json) (items : list (string * json))
         (ls : list AppHub.line) (r : result unit),
    AppHub.debug_rows users_info items = (ls, r) ->
    (r = Ok tt -> map row_user ls = map (fun kv => Some (fst kv)) items) /\
    (forall e, r = Raise e ->
       exists done rest,
         items = (done ++ rest)%list /\ rest <> [] /\
         map row_user ls = map (fun kv => Some (fst kv)) done).
Proof.
  intros users_info items.
  induction items as [|[user record] rest IH]; simpl; intros ls r H.
  - inv H. split; [reflexivity | discriminate].
  - unfold AppHub.out_bind in H.
    destruct (AppHub.debug_row users_info user record) as [l1 r1] eqn:Hrow.
    destruct (debug_row_lines _ _ _ _ _ Hrow) as [[-> Hl] | (e & -> & ->)].
    + destruct (AppHub.debug_rows users_info rest) as [l2 r2] eqn:Hrest.
      inv H. destruct (IH l2 r eq_refl) as [IHok IHerr].
      rewrite map_app, Hl. split.
      * intros Hr. simpl. now rewrite (IHok Hr).
      * intros e Hr. destruct (IHerr e Hr) as (done & rest' & -> & Hne & Hm).
        exists ((user, record) :: done), rest'.
        simpl. now rewrite Hm.
    + inv H. split; [discriminate|].
      intros e' _. exists [], ((user, record) :: rest).
      repeat split. discriminate.
Qed.

Lemma debug_rows_in_order_witness :
  map row_user
    (fst (AppHub.debug_rows (JObj Sample.users)
            [("Pavel", JObj [("level", JStr "PRO")]);
             ("Olga", JObj [("active", JBool true)])]))
  = [Some "Pavel"; Some "Olga"] /\
  exists done rest,
    [("Pavel", JObj [("level", JStr "PRO")]);
     ("Evgen", JObj [("level", JNull)]);
     ("Olga", JObj [("active", JBool true)])] = (done ++ rest)%list /\
    rest <> [] /\
    map row_user
      [AppHub.Row "Pavel" (JStr "PRO") (JStr "N/A")
         (AppHub.Until (JStr "N/A"))]
    = map (fun kv => Some (fst kv)) done.
Proof.
  split.
  - apply (proj1 (debug_rows_in_order (JObj Sample.users)
                    [("Pavel", JObj [("level", JStr "PRO")]);
                     ("Olga", JObj [("active", JBool true)])]
                    _ (Ok tt) eq_refl)).
    reflexivity.
  - apply (proj2 (debug_rows_in_order (JObj Sample.users)
                    [("Pavel", JObj [("level", JStr "PRO")]);
                     ("Evgen", JObj [("level", JNull)]);
                     ("Olga", JObj [("active", JBool true)])]
                    [AppHub.Row "Pavel" (JStr "PRO") (JStr "N/A")
                       (AppHub.Until (JStr "N/A"))]
                    (Raise TypeError) eq_refl) TypeError).
    reflexivity.
Defined.

(** ** The current date of [LicenseManager] *)

Lemma split_on_head (sep : ascii) (date rest : string) :
  has_char sep date = false ->
  hd EmptyString (split_on sep (date ++ String sep rest)) = date.
Proof.
  induction date as [|c date IH]; simpl.
  - now rewrite Ascii.eqb_refl.
  - intros H. apply orb_false_iff in H. destruct H as [Hc Hd].
    rewrite Hc. specialize (IH Hd).
    destruct (split_on sep (date ++ String sep rest)); simpl in *;
      now subst.
Qed.

(** X7.  When the first time service answers a mapping whose [datetime]
    is a time stamp [date ++ "T" ++ time], [_get_current_date_online]
    returns [date], whatever the other sources would answer; the second
    service is asked only when the first gives no date. *)
Theorem first_time_service_wins :
  forall (src : LicenseManager.time_sources) (data : list (string * json))
         (date time : string),
    LicenseManager.worldtime src = Some (JObj data) ->
    lookup "datetime" data = Some (JStr (date ++ String "T" time)) ->
    has_char "T" date = false ->
    LicenseManager._get_current_date_online_body src
    = LicenseManager.DateFound date.
Proof.
  intros src data date time Hw Hl Hd.
  unfold LicenseManager._get_current_date_online_body,
    LicenseManager.first_date, LicenseManager.date_of_answer.
  rewrite Hw. simpl.
  rewrite (has_key_lookup _ _ _ Hl), Hl.
  now rewrite (split_on_head "T" date time Hd).
Qed.

Lemma first_time_service_wins_witness :
  LicenseManager._get_current_date_online_body
    (LicenseManager.mkSources
       (Some (JObj [("datetime", JStr "2025-12-31T10:15:00+00:00")]))
       None None (fun _ => None))
  = LicenseManager.DateFound "2025-12-31".
Proof.
  apply (first_time_service_wins _
           [("datetime", JStr "2025-12-31T10:15:00+00:00")]
           "2025-12-31" "10:15:00+00:00"); reflexivity.
Defined.

(** X8.  [LicenseManager] fails closed on the date.  When neither time
    service answers and the request for the [Date] header raises,
    [_get_current_date_online] returns [None], and a record that is not
    active and has an [expires] is denied with [NoCurrentDate] whatever
    the date of expiry. *)
Theorem no_time_source_denies :
  forall (w : world) (src : LicenseManager.time_sources) (user : string)
         (tr : list event) (record : list (string * json)),
    LicenseManager.worldtime src = None ->
    LicenseManager.worldclock src = None ->
    LicenseManager.github_date src = None ->
    date_online w =
    LicenseManager.returned_date
      (LicenseManager._get_current_date_online_body src) ->
    is_true (field "active" record) = false ->
    truthy (field "expires" record) = true ->
    date_online w = None /\
    LicenseManager.evaluate_license w user (JObj record) tr =
    (Ok JNull, EvPrint NoCurrentDate :: EvDateOnline :: tr).
Proof.
  intros w src user tr record H1 H2 H3 Hd Ha He.
  assert (Hnone : date_online w = None).
  { rewrite Hd.
    unfold LicenseManager._get_current_date_online_body,
      LicenseManager.first_date.
    now rewrite H1, H2, H3. }
  split; [exact Hnone|].
  unfold LicenseManager.evaluate_license,
    LicenseManager._get_current_date_online, LicenseManager.print,
    LicenseManager.emit. mstep.
  unfold field in Ha, He.
  destruct (lookup "active" record); simpl; rewrite ?Ha; simpl;
    destruct (lookup "expires" record); simpl; try discriminate;
    rewrite He; simpl; now rewrite Hnone.
Qed.

Lemma no_time_source_denies_witness :
  LicenseManager.evaluate_license
    (mkWorld (fun _ _ => None) Sample.noon None (fun _ => "")
             (fun _ _ => false))
    "Pavel"
    (JObj [("active", JBool false); ("expires", JStr "2999-01-01")]) []
  = (Ok JNull, [EvPrint NoCurrentDate; EvDateOnline]).
Proof.
  apply (proj2 (no_time_source_denies
                  (mkWorld (fun _ _ => None) Sample.noon None (fun _ => "")
                           (fun _ _ => false))
                  (LicenseManager.mkSources None None None (fun _ => None))
                  "Pavel" []
                  [("active", JBool false); ("expires", JStr "2999-01-01")]
                  eq_refl eq_refl eq_refl eq_refl eq_refl eq_refl)).
Defined.

Lemma forallb_range (P : Z -> bool) (lo n : Z) :
  0 <= lo ->
  forallb P (map Z.of_nat (seq (Z.to_nat lo) (Z.to_nat n))) = true ->
  forall z, lo <= z < lo + n -> P z = true.
Proof.
  intros Hlo H z Hz. rewrite forallb_forall in H. apply H.
  apply in_map_iff. exists (Z.to_nat z). split; [lia|].
  apply in_seq. lia.
Qed.

Lemma year_round_trip (y : Z) (rest : string) :
  1 <= y <= 9999 ->
  parse_year (format_0d 4 y ++ rest) = Some (y, rest).
Proof.
  intros Hy.
  assert (Hok : year_ok y = true).
  { apply (forallb_range year_ok 1 9999);
      [lia | vm_compute; reflexivity | lia]. }
  unfold year_ok in Hok.
  destruct (format_0d 4 y) as [|a [|b [|c [|d tl]]]]; simpl in *;
    try discriminate.
  destruct (digit_of a), (digit_of b), (digit_of c), (digit_of d);
    try discriminate.
  destruct tl; [|discriminate].
  apply Z.eqb_eq in Hok. now subst.
Qed.

Lemma month_round_trip (m : Z) (rest : string) :
  1 <= m <= 12 ->
  parse_month (format_0d 2 m ++ "-" ++ rest) = Some (m, "-" ++ rest).
Proof.
  intros Hm.
  assert (Hok : month_ok m = true).
  { apply (forallb_range month_ok 1 12);
      [lia | vm_compute; reflexivity | lia]. }
  unfold month_ok in Hok.
  destruct (format_0d 2 m) as [|a [|b [|]]]; try discriminate.
  simpl in *.
  destruct (digit_of a) as [[|[]|]|], (digit_of b) as [y|];
    try discriminate;
    repeat match type of Hok with
      | context [if ?c then _ else _] => destruct c
      end; try discriminate;
    apply Z.eqb_eq in Hok; now subst.
Qed.

Lemma day_round_trip (d : Z) :
  1 <= d <= 31 ->
  parse_day (format_0d 2 d) = Some (d, "").
Proof.
  intros Hd.
  assert (Hok : day_ok d = true).
  { apply (forallb_range day_ok 1 31);
      [lia | vm_compute; reflexivity | lia]. }
  unfold day_ok in Hok.
  destruct (format_0d 2 d) as [|a [|b [|]]]; try discriminate.
  destruct (parse_day (String a (String b ""))) as [[d' [|]]|];
    try discriminate.
  apply Z.eqb_eq in Hok. now subst.
Qed.

Lemma days_in_month_le_31 (y m : Z) : days_in_month y m <= 31.
Proof.
  unfold days_in_month.
  repeat match goal with
    | |- context [if ?c then _ else _] => destruct c
    end; lia.
Qed.

(** X9.  The date built from the [Date] header parses back: for the
    year, month and day of a calendar date with a year of at most four
    digits, [strptime] of the string [_get_current_date_online] formats
    is midnight of that date, so the fallback never yields a date that
    [check_license] rejects as malformed. *)
Theorem header_date_round_trip :
  forall (src : LicenseManager.time_sources) (date_header : string)
         (y m d : Z),
    LicenseManager.worldtime src = None ->
    LicenseManager.worldclock src = None ->
    LicenseManager.github_date src = Some (Some date_header) ->
    date_header <> "" ->
    LicenseManager.parsedate src date_header = Some (y, m, d) ->
    1 <= y <= 9999 -> 1 <= m <= 12 -> 1 <= d <= days_in_month y m ->
    LicenseManager._get_current_date_online_body src =
    LicenseManager.DateFound (header_date y m d) /\
    strptime (header_date y m d) = Some (midnight y m d).
Proof.
  intros src date_header y m d H1 H2 H3 Hne Hp Hy Hm Hd. split.
  - unfold LicenseManager._get_current_date_online_body,
      LicenseManager.first_date.
    rewrite H1, H2, H3. simpl.
    destruct (String.eqb_spec date_header ""); [contradiction|].
    simpl. now rewrite Hp.
  - unfold strptime, header_date.
    rewrite year_round_trip by assumption.
    change ("-" ++ format_0d 2 m ++ "-" ++ format_0d 2 d)
      with (String "-" (format_0d 2 m ++ "-" ++ format_0d 2 d)).
    cbv iota beta.
    rewrite month_round_trip by assumption.
    change ("-" ++ format_0d 2 d) with (String "-" (format_0d 2 d)).
    cbv iota beta.
    assert (H31 := days_in_month_le_31 y m).
    rewrite day_round_trip by lia.
    destruct (Z.leb_spec 1 y); [|lia].
    destruct (Z.leb_spec d (days_in_month y m)); [|lia].
    reflexivity.
Qed.

Lemma header_date_round_trip_witness :
  LicenseManager._get_current_date_online_body
    (LicenseManager.mkSources None None
       (Some (Some "Sat, 29 Feb 2024 08:00:00 GMT"))
       (fun _ => Some (2024, 2, 29)))
  = LicenseManager.DateFound "2024-02-29" /\
  strptime "2024-02-29" = Some (midnight 2024 2 29).
Proof.
  apply (header_date_round_trip
           (LicenseManager.mkSources None None
              (Some (Some "Sat, 29 Feb 2024 08:00:00 GMT"))
              (fun _ => Some (2024, 2, 29)))
           "Sat, 29 Feb 2024 08:00:00 GMT" 2024 2 29);
    try reflexivity; try discriminate; vm_compute; split; discriminate.
Defined.

(** ** A check with the licenses in their slot *)

Section Settled.
Import AppHub.

Lemma licensed_inputs (h h' : hub) :
  check_inputs h' = check_inputs h -> licensed h -> licensed h'.
Proof.
  unfold check_inputs, licensed. intros H Hl. inv H. congruence.
Qed.

Lemma st_ret {A} (a : A) : settled (ret a).
Proof.
  intros h _. split; [reflexivity | split]; [exists []; auto | auto].
Qed.

Lemma st_lift {A} (r : result A) : settled (lift r).
Proof.
  intros h _. split; [reflexivity | split]; [exists []; auto | auto].
Qed.

Lemma st_gets {A} (f : hub -> A) :
  (forall h h', check_inputs h' = check_inputs h -> f h' = f h) ->
  settled (gets f).
Proof.
  intros Hf h _. split; [reflexivity | split].
  - exists []. auto.
  - intros h' E. unfold gets. simpl. now rewrite (Hf h h' E).
Qed.

Lemma st_modify (f : hub -> hub) :
  (forall h, check_inputs (f h) = check_inputs h) ->
  (forall h, trace (f h) = trace h) ->
  settled (modify f).
Proof.
  intros H1 H2 h _. split; [apply H1 | split].
  - exists []. simpl. auto.
  - auto.
Qed.

Lemma st_emit (e : event) : is_fetch e = false -> settled (emit e).
Proof.
  intros He h _. split; [reflexivity | split].
  - exists [e]. simpl. now rewrite He.
  - auto.
Qed.

Lemma st_bind {A B} (c : M A) (k : A -> M B) :
  settled c -> (forall a, settled (k a)) -> settled (bind c k).
Proof.
  intros Hc Hk h Hl. unfold bind.
  destruct (Hc h Hl) as (Hin & (evs & Htr & Hf) & Hval).
  destruct (c h) as [[a|e] h1] eqn:Hch; simpl in *.
  - assert (Hl1 : licensed h1) by (apply (licensed_inputs h h1); auto).
    destruct (Hk a h1 Hl1) as (Hin2 & (evs2 & Htr2 & Hf2) & Hval2).
    split; [congruence | split].
    + exists (evs2 ++ evs)%list. split.
      * now rewrite Htr2, Htr, app_assoc.
      * now rewrite filter_app, Hf2, Hf.
    + intros h' E.
      assert (Hl' : licensed h') by (apply (licensed_inputs h h'); auto).
      destruct (Hc h' Hl') as (Hin' & _ & _).
      specialize (Hval h' E).
      destruct (c h') as [[a'|e'] h1']; simpl in *; inv Hval.
      apply Hval2. congruence.
  - split; [assumption | split].
    + exists evs. auto.
    + intros h' E. specialize (Hval h' E).
      destruct (c h') as [[a'|e'] h1']; simpl in *; now inv Hval.
Qed.

Ltac st_field :=
  let h := fresh in let h' := fresh in let E := fresh in
  intros h h' E; unfold check_inputs in E; now inv E.

Ltac st_step :=
  first
    [ apply st_ret
    | apply st_lift
    | apply st_gets; st_field
    | apply st_modify; reflexivity
    | apply st_emit; reflexivity
    | apply st_bind; [|intros]
    | match goal with
      | |- settled (if ?b then _ else _) => destruct b
      | |- settled (match ?x with _ => _ end) => destruct x
      end ].

Lemma st_load_licenses (w : world) : settled (_load_licenses w).
Proof.
  intros h Hl. rewrite (load_licenses_cached w h Hl). simpl.
  split; [reflexivity | split].
  - exists []. auto.
  - intros h' E.
    now rewrite (load_licenses_cached w h' (licensed_inputs h h' E Hl)).
Qed.

Lemma st_print (m : message) : settled (print m).
Proof. unfold print. now apply st_emit. Qed.

Lemma st_version_gate (v : json) : settled (version_gate v).
Proof. unfold version_gate. repeat first [apply st_print | st_step]. Qed.

Lemma st_find_user (w : world) : settled (_find_user w).
Proof.
  unfold _find_user. repeat first [apply st_load_licenses | st_step].
Qed.

Lemma st_evaluate_license (w : world) (record : json) :
  settled (evaluate_license w record).
Proof.
  unfold evaluate_license. repeat first [apply st_print | st_step].
Qed.

Lemma st_check_application (w : world) (user : string) :
  settled (check_application w user).
Proof.
  unfold check_application.
  repeat first [apply st_print | apply st_evaluate_license | st_step].
Qed.

Lemma st_check_license (w : world) : settled (check_license w).
Proof.
  unfold check_license, _copy_hwid_to_clipboard.
  repeat first [ apply st_load_licenses | apply st_version_gate
               | apply st_find_user | apply st_check_application
               | apply st_print | st_step ].
Qed.

(** A check on an empty slot is the load followed by a check on the
    filled slot. *)
Lemma check_license_after_load (w : world) (h h1 : hub) :
  _load_licenses w h = (Ok true, h1) ->
  check_license w h = check_license w h1.
Proof.
  intros Hload.
  assert (Hl : licensed h1) by apply (load_licenses_true w h h1 Hload).
  unfold check_license, bind.
  now rewrite Hload, (load_licenses_cached w h1 Hl).
Qed.

Lemma check_license_load_fails (w : world) (h h1 : hub) (r : result bool) :
  _load_licenses w h = (r, h1) -> r <> Ok true ->
  snd (check_license w h) = h1.
Proof.
  intros Hload Hr. unfold check_license. unfold bind at 1. rewrite Hload.
  destruct r as [[|]|e]; try reflexivity. contradiction.
Qed.
End Settled.

Lemma settled_requests {A} (c : M (S := AppHub.hub) A) (h : AppHub.hub) :
  settled c -> licensed h ->
  filter is_fetch (AppHub.trace (snd (c h))) =
  filter is_fetch (AppHub.trace h).
Proof.
  intros Hc Hl. destruct (Hc h Hl) as (_ & (evs & Htr & Hf) & _).
  now rewrite Htr, filter_app, Hf.
Qed.

(** X10.  [AppHub.check_license] sends exactly one request, for
    [licenses.json], when the licenses slot is empty, and none when the
    slot holds a document: the identity lookup and the checks after it
    never go to the network. *)
Theorem check_license_requests :
  forall (w : world) (h : AppHub.hub),
    (is_none (AppHub._licenses h) = false ->
     filter is_fetch (AppHub.trace (snd (AppHub.check_license w h))) =
     filter is_fetch (AppHub.trace h)) /\
    (is_none (AppHub._licenses h) = true ->
     filter is_fetch (AppHub.trace (snd (AppHub.check_license w h))) =
     EvFetch "licenses.json" :: filter is_fetch (AppHub.trace h)).
Proof.
  intros w h. split.
  - intros Hl. apply settled_requests; [apply st_check_license | exact Hl].
  - intros Hc.
    destruct (AppHub._load_licenses w h) as [r h1] eqn:Hload.
    destruct (load_licenses_miss w h h1 r Hc Hload) as [Htr _].
    destruct r as [[|]|e].
    + rewrite (check_license_after_load w h h1 Hload).
      rewrite settled_requests; [exact Htr | apply st_check_license |].
      apply (load_licenses_true w h h1 Hload).
    + rewrite (check_license_load_fails w h h1 _ Hload); [exact Htr|].
      discriminate.
    + rewrite (check_license_load_fails w h h1 _ Hload); [exact Htr|].
      discriminate.
Qed.

Lemma check_license_requests_witness :
  filter is_fetch
    (AppHub.trace (snd (AppHub.check_license Sample.w Sample.pavel)))
  = [EvFetch "licenses.json"] /\
  filter is_fetch
    (AppHub.trace
       (snd (AppHub.check_license Sample.w (Sample.checked Sample.pavel))))
  = [EvFetch "licenses.json"].
Proof.
  split.
  - apply (proj2 (check_license_requests Sample.w Sample.pavel)).
    reflexivity.
  - apply (proj1 (check_license_requests Sample.w
                    (Sample.checked Sample.pavel))).
    reflexivity.
Defined.

(** X11.  A license check can be repeated: once the licenses are loaded,
    a second [check_license] on the same object returns what the first
    returned (for the same clock reading) and sends no request. *)
Theorem check_license_repeatable :
  forall (w : world) (h h1 : AppHub.hub),
    AppHub._load_licenses w h = (Ok true, h1) ->
    let h2 := snd (AppHub.check_license w h) in
    fst (AppHub.check_license w h2) = fst (AppHub.check_license w h) /\
    filter is_fetch (AppHub.trace (snd (AppHub.check_license w h2))) =
    filter is_fetch (AppHub.trace h2).
Proof.
  intros w h h1 Hload h2. subst h2.
  assert (Hl : licensed h1) by apply (load_licenses_true w h h1 Hload).
  rewrite (check_license_after_load w h h1 Hload).
  destruct (st_check_license w h1 Hl) as (Hin & _ & Hval).
  assert (Hl2 : licensed (snd (AppHub.check_license w h1)))
    by (apply (licensed_inputs h1); assumption).
  split.
  - apply Hval. exact Hin.
  - apply settled_requests; [apply st_check_license | exact Hl2].
Qed.

Lemma check_license_repeatable_witness :
  fst (AppHub.check_license Sample.w (Sample.checked Sample.evgen))
  = Ok (JStr "DEV") /\
  filter is_fetch
    (AppHub.trace
       (snd (AppHub.check_license Sample.w (Sample.checked Sample.evgen))))
  = [EvFetch "licenses.json"].
Proof.
  apply (check_license_repeatable Sample.w Sample.evgen
           (Sample.loaded Sample.evgen)).
  reflexivity.
Defined.

(** ** Denials of the license record *)









(** ** Denials before the license record *)






(** ** What [get] costs and what it leaves alone *)

Section Bounded.
Import AppHub.

Lemma bd_le {A} (n m : nat) (c : M A) :
  (n <= m)%nat -> bounded n c -> bounded m c.
Proof.
  intros Hle Hc h. destruct (Hc h) as (Hctx & evs & Htr & Hn).
  split; [assumption|]. exists evs. split; [assumption | lia].
Qed.

Lemma bd_ret {A} (a : A) : bounded 0 (ret a).
Proof. intros h. split; [reflexivity|]. exists []. auto. Qed.

Lemma bd_lift {A} (r : result A) : bounded 0 (lift r).
Proof. intros h. split; [reflexivity|]. exists []. auto. Qed.

Lemma bd_gets {A} (f : hub -> A) : bounded 0 (gets f).
Proof. intros h. split; [reflexivity|]. exists []. auto. Qed.

Lemma bd_modify (f : hub -> hub) :
  (forall h, license_context (f h) = license_context h) ->
  (forall h, trace (f h) = trace h) ->
  bounded 0 (modify f).
Proof.
  intros H1 H2 h. split; [apply H1|]. exists []. simpl. auto.
Qed.

Lemma bd_emit (e : event) :
  bounded (if is_fetch e then 1 else 0) (emit e).
Proof.
  intros h. split; [reflexivity|]. exists [e]. simpl.
  split; [reflexivity|]. destruct (is_fetch e); simpl; lia.
Qed.

Lemma bd_bind {A B} (n1 n2 : nat) (c : M A) (k : A -> M B) :
  bounded n1 c -> (forall a, bounded n2 (k a)) ->
  bounded (n1 + n2) (bind c k).
Proof.
  intros Hc Hk h. unfold bind.
  destruct (Hc h) as (Hctx & evs & Htr & Hn).
  destruct (c h) as [[a|e] h1]; simpl in *.
  - destruct (Hk a h1) as (Hctx2 & evs2 & Htr2 & Hn2).
    split; [congruence|].
    exists (evs2 ++ evs)%list. split.
    + now rewrite Htr2, Htr, app_assoc.
    + rewrite filter_app, length_app. lia.
  - split; [assumption|]. exists evs. split; [assumption | lia].
Qed.

Ltac bd0 :=
  repeat first
    [ apply bd_ret
    | apply bd_lift
    | apply bd_gets
    | apply bd_modify; reflexivity
    | apply (bd_emit (EvPrint _))
    | apply (bd_bind 0 0); [|intros]
    | match goal with
      | |- bounded 0 (if ?b then _ else _) => destruct b
      | |- bounded 0 (match ?x with _ => _ end) => destruct x
      end ].

Lemma bd_print (m : message) : bounded 0 (print m).
Proof. unfold print. apply (bd_emit (EvPrint m)). Qed.

Lemma bd_search_user (param : string) : bounded 0 (search_user param).
Proof. unfold search_user. bd0. Qed.

Lemma bd_get_server : bounded 0 get_server.
Proof. unfold get_server, print. bd0. Qed.

Lemma bd_fetch_json (w : world) (f : string) : bounded 1 (_fetch_json w f).
Proof.
  unfold _fetch_json, print.
  apply (bd_bind 0 1); [bd0 | intros k].
  apply (bd_bind 1 0); [apply (bd_emit (EvFetch f)) | intros _].
  bd0.
Qed.

Lemma bd_load_server_config (w : world) (name : json) :
  bounded 1 (_load_server_config w name).
Proof.
  unfold _load_server_config.
  apply (bd_bind 0 1); [bd0 | intros cached].
  apply (bd_bind 0 1); [bd0 | intros current].
  destruct (negb (is_none cached) && name_eq w current name).
  - apply (bd_le 0); [lia | bd0].
  - apply (bd_bind 1 0); [apply bd_fetch_json | intros data]. bd0.
Qed.

Lemma bd_load_global_config (w : world) :
  bounded 1 (_load_global_config w).
Proof.
  unfold _load_global_config.
  apply (bd_bind 0 1); [bd0 | intros cached].
  destruct (negb (is_none cached)).
  - apply (bd_le 0); [lia | bd0].
  - apply (bd_bind 1 0); [apply bd_fetch_json | intros data]. bd0.
Qed.

Lemma bd_search_server (w : world) (param : string) :
  bounded 1 (search_server w param).
Proof.
  unfold search_server.
  apply (bd_bind 0 1); [apply bd_get_server | intros server].
  destruct (negb (truthy server)); [apply (bd_le 0); [lia | bd0]|].
  apply (bd_bind 1 0); [apply bd_load_server_config | intros ok]. bd0.
Qed.

Lemma bd_search_global (w : world) (param : string) (fallback : bool) :
  bounded 1 (search_global w param fallback).
Proof.
  unfold search_global.
  destruct (negb fallback); [apply (bd_le 0); [lia | bd0]|].
  apply (bd_bind 1 0); [apply bd_load_global_config | intros ok]. bd0.
Qed.

Lemma bd_get (w : world) (param : string) (fallback : bool) :
  bounded 2 (get w param fallback).
Proof.
  unfold get.
  apply (bd_bind 0 2); [apply bd_search_user | intros [v|]].
  - apply (bd_le 0); [lia | bd0].
  - apply (bd_bind 1 1); [apply bd_search_server | intros [v|]].
    + apply (bd_le 0); [lia | bd0].
    + apply (bd_bind 1 0); [apply bd_search_global | intros [v|]].
      * bd0.
      * apply (bd_bind 0 0); [apply bd_print | intros _]. bd0.
Qed.
End Bounded.

(** X17.  A call of [get] leaves the license context of the object as
    it is (application, version, identifier, licenses, resolved user and
    license record), only adds events to the trace, and sends at most
    two requests: one for the server document and one for the global
    document. *)
Theorem get_bounded :
  forall (w : world) (param : string) (fallback : bool) (h : AppHub.hub),
    license_context (snd (AppHub.get w param fallback h))
    = license_context h /\
    exists evs,
      AppHub.trace (snd (AppHub.get w param fallback h))
      = (evs ++ AppHub.trace h)%list /\
      (length (filter is_fetch evs) <= 2)%nat.
Proof.
  intros w param fallback h. apply bd_get.
Qed.

(** ** The requests of [LicenseManager] *)

Section Silent.
Import LicenseManager.





End Silent.




(** ** [get] without a granted license *)

(** X19.  [get] does not depend on a license check.  On an object on
    which no check has resolved a user, the server tier is skipped with
    the message [CheckNotCalled]: without the fallback [get] answers
    not-found without any request, and with the fallback it serves the
    parameters of the global document. *)
Theorem get_before_check :
  forall (w : world) (param : string) (h : AppHub.hub),
    AppHub._user_name h = None ->
    AppHub._user_data h = JNull ->
    let h' := AppHub.record_event (EvPrint CheckNotCalled) h in
    AppHub.get w param false h =
    (Ok JNull, AppHub.record_event (EvPrint (ParameterNotFound param)) h') /\
    (forall h2 gdoc v,
        AppHub._load_global_config w h' = (Ok true, h2) ->
        AppHub._global_config h2 = JObj gdoc ->
        tier_lookup param gdoc = Some v ->
        AppHub.get w param true h = (Ok v, h2)).
Proof.
  intros w param h Hn Hd h'.
  assert (Hu : user_misses param h) by (left; exact Hd).
  assert (Hs : AppHub.search_server w param h = (Ok None, h')).
  { unfold AppHub.search_server, AppHub.get_server, AppHub.print,
      AppHub.emit. mstep. now rewrite Hn. }
  split.
  - now rewrite (get_after_user w param false h Hu), Hs.
  - intros h2 gdoc v Hl Hg Hv.
    rewrite (get_after_user w param true h Hu), Hs.
    rewrite (search_global_loaded w param h' h2 gdoc Hl Hg).
    now rewrite Hv.
Qed.

Lemma get_before_check_witness :
  let h' := AppHub.record_event (EvPrint CheckNotCalled) Sample.pavel in
  AppHub.get Sample.w "x" false Sample.pavel =
  (Ok JNull, AppHub.record_event (EvPrint (ParameterNotFound "x")) h') /\
  AppHub.get Sample.w "x" true Sample.pavel =
  (Ok (JInt 9), snd (AppHub._load_global_config Sample.w h')).
Proof.
  intros h'.
  destruct (get_before_check Sample.w "x" Sample.pavel eq_refl eq_refl)
    as [A B].
  split; [exact A|].
  apply (B (snd (AppHub._load_global_config Sample.w h'))
           Sample.global_json); reflexivity.
Defined.




(** ** [get] on well-formed documents *)

Section GetTotal.
Import AppHub.
Variable w : world.
Hypothesis Hstore :
  forall k f d, store w k f = Some d -> mapping_or_none d = true.

Lemma mapping_not_none (d : json) :
  mapping_or_none d = true -> is_none d = false ->
  exists doc, d = JObj doc.
Proof. destruct d; try discriminate. eauto. Qed.

Lemma fetched_mapping (f : string) (h : hub) :
  mapping_or_none (fetched w f h) = true.
Proof.
  unfold fetched.
  destruct (store w (fetch_count (trace h)) f) eqn:E; [|reflexivity].
  now apply (Hstore _ _ _ E).
Qed.

Lemma search_user_ok (param : string) (h : hub) :
  mapping_or_none (_user_data h) = true ->
  exists o, search_user param h = (Ok o, h).
Proof.
  intros Hm. destruct (_user_data h) as [| | | | | |record] eqn:Hd;
    try discriminate.
  - exists None. apply search_user_miss. now left.
  - destruct (lookup param record) as [v|] eqn:Hl.
    + exists (Some v). now apply search_user_hit with record.
    + exists None. apply search_user_miss. right. eauto.
Qed.

Lemma search_config_ok (param : string) (d : json) :
  mapping_or_none d = true -> is_none d = false ->
  exists o, search_config d param = Ok o.
Proof.
  intros Hm Hn. destruct (mapping_not_none d Hm Hn) as [doc ->].
  rewrite search_config_tier. eauto.
Qed.

Lemma load_server_config_ok (name : json) (h : hub) :
  mapping_or_none (_server_config h) = true ->
  exists b h1,
    _load_server_config w name h = (Ok b, h1) /\
    mapping_or_none (_server_config h1) = true /\
    (b = true -> is_none (_server_config h1) = false) /\
    _global_config h1 = _global_config h.
Proof.
  intros Hm.
  destruct (negb (is_none (_server_config h))
            && name_eq w (_server_name h) name) eqn:Hc.
  - rewrite (load_server_config_hit w name h Hc).
    exists true, h. repeat split; auto.
    apply andb_true_iff in Hc. destruct Hc as [Hc _].
    now apply negb_true_iff in Hc.
  - rewrite (load_server_config_miss w name h Hc).
    eexists. eexists. split; [reflexivity|]. simpl.
    split; [apply fetched_mapping|]. split.
    + intros Hb. now apply negb_true_iff in Hb.
    + unfold after_fetch.
      now destruct (store w (fetch_count (trace h)) (json_file w name)).
Qed.

Lemma load_global_config_ok (h : hub) :
  mapping_or_none (_global_config h) = true ->
  exists b h1,
    _load_global_config w h = (Ok b, h1) /\
    mapping_or_none (_global_config h1) = true /\
    (b = true -> is_none (_global_config h1) = false).
Proof.
  intros Hm.
  destruct (is_none (_global_config h)) eqn:Hc.
  - rewrite (load_global_config_miss w h Hc).
    eexists. eexists. split; [reflexivity|]. simpl.
    split; [apply fetched_mapping|].
    intros Hb. now apply negb_true_iff in Hb.
  - rewrite (load_global_config_hit w h Hc).
    exists true, h. auto.
Qed.

Lemma get_server_slots (h : hub) :
  _server_config (snd (get_server h)) = _server_config h /\
  _global_config (snd (get_server h)) = _global_config h.
Proof.
  unfold get_server, print, emit. mstep. repeat break_match; auto.
Qed.

Lemma search_server_ok (param : string) (h : hub) (s : json) :
  fst (get_server h) = Ok s ->
  mapping_or_none (_server_config h) = true ->
  mapping_or_none (_global_config h) = true ->
  exists o h1,
    search_server w param h = (Ok o, h1) /\
    mapping_or_none (_global_config h1) = true.
Proof.
  intros Hs Hsc Hgc. unfold search_server, bind.
  destruct (get_server_slots h) as [E1 E2].
  destruct (get_server h) as [r hs]. simpl in *. subst r.
  destruct (truthy s); simpl.
  - rewrite <- E1 in Hsc.
    destruct (load_server_config_ok s hs Hsc)
      as (b & h1 & Hl & Hm & Hb & Hg).
    rewrite Hl. destruct b; simpl.
    + unfold gets, lift.
      destruct (search_config_ok param _ Hm (Hb eq_refl)) as [o Ho].
      rewrite Ho. exists o, h1. split; [reflexivity | congruence].
    + exists None, h1. split; [reflexivity | congruence].
  - exists None, hs. split; [reflexivity | congruence].
Qed.

Lemma search_global_ok (param : string) (fallback : bool) (h : hub) :
  mapping_or_none (_global_config h) = true ->
  exists o h1, search_global w param fallback h = (Ok o, h1).
Proof.
  intros Hgc. unfold search_global, bind.
  destruct fallback; simpl; [|exists None, h; reflexivity].
  destruct (load_global_config_ok h Hgc) as (b & h1 & Hl & Hm & Hb).
  rewrite Hl. destruct b; simpl; [|exists None, h1; reflexivity].
  unfold gets, lift.
  destruct (search_config_ok param _ Hm (Hb eq_refl)) as [o Ho].
  rewrite Ho. exists o, h1. reflexivity.
Qed.

Lemma get_ok (param : string) (fallback : bool) (h : hub) (s : json) :
  mapping_or_none (_user_data h) = true ->
  mapping_or_none (_server_config h) = true ->
  mapping_or_none (_global_config h) = true ->
  fst (get_server h) = Ok s ->
  exists v, fst (get w param fallback h) = Ok v.
Proof.
  intros Hud Hsc Hgc Hs. unfold get, bind.
  destruct (search_user_ok param h Hud) as [[v|] Hu]; rewrite Hu;
    [exists v; reflexivity|].
  destruct (search_server_ok param h s Hs Hsc Hgc)
    as ([v|] & h1 & Hsv & Hg1); rewrite Hsv; [exists v; reflexivity|].
  destruct (search_global_ok param fallback h1 Hg1)
    as ([v|] & h2 & Hgl); rewrite Hgl;
    [exists v; reflexivity | exists JNull; reflexivity].
Qed.
End GetTotal.

(** X21.  [get] does not raise on well-formed data.  When every document
    the store answers is a mapping, the slots and the license record
    hold [None] or a mapping, and [get_server] does not raise, [get]
    returns a value, the not-found signal included, for every parameter
    name and either value of the fallback. *)
Theorem get_total_on_mappings :
  forall (w : world) (param : string) (fallback : bool) (h : AppHub.hub)
         (s : json),
    (forall k f d, store w k f = Some d -> mapping_or_none d = true) ->
    mapping_or_none (AppHub._user_data h) = true ->
    mapping_or_none (AppHub._server_config h) = true ->
    mapping_or_none (AppHub._global_config h) = true ->
    fst (AppHub.get_server h) = Ok s ->
    exists v, fst (AppHub.get w param fallback h) = Ok v.
Proof.
  intros w param fallback h s Hst Hud Hsc Hgc Hs.
  now apply get_ok with s.
Qed.

Lemma get_total_on_mappings_witness :
  exists v,
    fst (AppHub.get Sample.w "missing" true (Sample.checked Sample.evgen))
    = Ok v.
Proof.
  apply (get_total_on_mappings Sample.w "missing" true
           (Sample.checked Sample.evgen) (JStr "alure"));
    try reflexivity.
  intros k f d. simpl. unfold Sample.files.
  destruct (String.eqb f "licenses.json"); [intros H; now inv H|].
  destruct (String.eqb f "global.json"); [intros H; now inv H|].
  destruct (String.eqb f "alure.json"); [intros H; now inv H|].
  discriminate.
Defined.

(** ** The whole table *)

(** X22.  [debug_all_users] on an object whose licenses are loaded sends
    no request and leaves the object as it is.  For an application that
    [apps] does not list it prints the heading and the not-found line,
    without a closing rule; otherwise it prints the heading, the rows of
    the loop and, unless a row raised, the closing rule. *)
Theorem debug_all_users_table :
  forall (w : world) (h : AppHub.hub) (doc apps : list (string * json)),
    AppHub._licenses h = JObj doc ->
    lookup "apps" doc = Some (JObj apps) ->
    let app := AppHub.app_name h in
    let heading := [AppHub.Rule; AppHub.Title app; AppHub.Rule] in
    (lookup app apps = None ->
     AppHub.debug_all_users w h =
     ((heading ++ [AppHub.AppMissing app], Ok tt)%list, h)) /\
    (forall app_users rows r,
        lookup app apps = Some (JObj app_users) ->
        AppHub.debug_rows
          (match lookup "users" doc with Some u => u | None => JObj [] end)
          app_users = (rows, r) ->
        AppHub.debug_all_users w h =
        ((heading ++ rows
            ++ match r with Ok _ => [AppHub.Rule] | Raise _ => [] end,
          r)%list, h)).
Proof.
  intros w h doc apps Hl Ha app heading.
  assert (Hload : AppHub._load_licenses w h = (Ok true, h))
    by (apply load_licenses_cached; now rewrite Hl).
  unfold AppHub.debug_all_users. rewrite Hload, Hl.
  unfold AppHub.debug_table, AppHub.out_bind, AppHub.say, AppHub.try_.
  simpl. rewrite Ha. simpl. fold app. split.
  - intros Hn. now rewrite (has_key_none _ _ Hn).
  - intros app_users rows r Hp Hr.
    rewrite (has_key_lookup _ _ _ Hp), Hp. simpl.
    destruct (lookup "users" doc); rewrite Hr;
      destruct r as [[]|e]; simpl; try reflexivity;
      now rewrite ?app_nil_r.
Qed.

Lemma debug_all_users_table_witness :
  let h := Sample.checked Sample.evgen in
  AppHub.debug_all_users Sample.w (Sample.checked
                                     (AppHub.init "editor" "5" "hw-evgen")) =
  (([AppHub.Rule; AppHub.Title "editor"; AppHub.Rule;
     AppHub.AppMissing "editor"], Ok tt),
   Sample.checked (AppHub.init "editor" "5" "hw-evgen")) /\
  AppHub.debug_all_users Sample.w h =
  (([AppHub.Rule; AppHub.Title "joystick"; AppHub.Rule;
     AppHub.Row "Pavel" (JStr "PRO") (JStr "N/A")
       (AppHub.Until (JStr "2025-12-31"));
     AppHub.Row "Evgen" (JStr "DEV") (JStr "alure") AppHub.Active;
     AppHub.Row "Olga" (JStr "TRY") (JStr "N/A") AppHub.Active;
     AppHub.Rule], Ok tt), h).
Proof.
  intros h. split.
  - apply (proj1 (debug_all_users_table Sample.w
                    (Sample.checked (AppHub.init "editor" "5" "hw-evgen"))
                    Sample.licenses Sample.apps eq_refl eq_refl)).
    reflexivity.
  - destruct (debug_all_users_table Sample.w h Sample.licenses Sample.apps
                eq_refl eq_refl) as [_ B].
    apply (B [("Pavel", JObj [("level", JStr "PRO");
                              ("active", JBool false);
                              ("expires", JStr "2025-12-31")]);
              ("Evgen", JObj [("active", JBool true);
                              ("level", JStr "DEV");
                              ("delay", JInt 7)]);
              ("Olga", JObj [("active", JBool true);
                             ("expires", JStr "2020-01-01")])]
             [AppHub.Row "Pavel" (JStr "PRO") (JStr "N/A")
                (AppHub.Until (JStr "2025-12-31"));
              AppHub.Row "Evgen" (JStr "DEV") (JStr "alure") AppHub.Active;
              AppHub.Row "Olga" (JStr "TRY") (JStr "N/A") AppHub.Active]
             (Ok tt)); reflexivity.
Defined.

(** ** More on the hardware identifier *)

(** X23.  The host name is the last resort of [_generate_hwid]: when no
    identifier could be collected the result is the hash of the host
    name, and as soon as one was collected the host name plays no part
    in the result. *)
Theorem host_name_is_last_resort :
  forall (m : machine) (name : string),
    (identifiers m = [] -> _generate_hwid m = sha256 m (node m)) /\
    (identifiers m <> [] ->
     _generate_hwid (with_node name m) = _generate_hwid m).
Proof.
  intros m name. unfold _generate_hwid. split.
  - intros ->. simpl. reflexivity.
  - intros Hne.
    change (identifiers (with_node name m)) with (identifiers m).
    destruct (identifiers m); [contradiction | reflexivity].
Qed.

Lemma host_name_is_last_resort_witness :
  let down := mkMachine "Linux" (fun _ => None) None None "alpha"
                        (fun s => s) in
  let up := mkMachine "Linux" (fun _ => None) None (Some 5) "alpha"
                      (fun s => s) in
  _generate_hwid down = "alpha" /\
  _generate_hwid (with_node "beta" up) = _generate_hwid up.
Proof.
  intros down up. split.
  - apply (proj1 (host_name_is_last_resort down "beta")). reflexivity.
  - apply (proj2 (host_name_is_last_resort up "beta")). discriminate.
Defined.

(** ** The two classes on legacy documents *)

(** X24.  On a [users] mapping whose entries are all identity strings
    (the legacy form), the identity lookups of [AppHub] and of
    [LicenseManager] resolve the same user. *)
Theorem legacy_lookup_agrees :
  forall (hw : string) (items : list (string * json)),
    forallb (fun kv => negb (not_str (snd kv))) items = true ->
    AppHub.find_in_users hw items = LicenseManager.find_in_users hw items.
Proof.
  intros hw items. induction items as [|[name info] rest IH]; simpl.
  - reflexivity.
  - intros H. apply andb_true_iff in H. destruct H as [Hi Hr].
    destruct info; try discriminate. simpl.
    destruct (String.eqb s hw); [reflexivity | now apply IH].
Qed.

Lemma legacy_lookup_agrees_witness :
  AppHub.find_in_users "hw-olga"
    [("Pavel", JStr "hw-pavel"); ("Olga", JStr "hw-olga")] =
  LicenseManager.find_in_users "hw-olga"
    [("Pavel", JStr "hw-pavel"); ("Olga", JStr "hw-olga")].
Proof.
  apply (legacy_lookup_agrees "hw-olga"
           [("Pavel", JStr "hw-pavel"); ("Olga", JStr "hw-olga")]).
  reflexivity.
Defined.
